(** * code-coverage-report-action: the orchestrator and report generator

    A shallow embedding of [src/main.ts] and [src/interfaces.ts].

    - JavaScript numbers are modelled by rationals ([Q]); NaN and the
      infinities are not represented.  A number is falsy exactly when it
      is zero.
    - [number | null] (and [undefined]) is [option].
    - The effects of a run (calls to [core.setFailed], [core.setOutput],
      [writeFile], the artifact client, ...) are recorded, in order, in a
      log; the job-summary builder [core.summary] is a buffer of blocks.
      Both live in the state threaded through the monad [M], next to the
      possibility of a thrown exception.
    - The host platform (JavaScript built-ins and npm packages) is the
      class [Host]; what a run reads from its surroundings (inputs,
      environment, file system, artifact store) is the record [World]. *)

From Stdlib Require Import QArith Qround Qabs String List Bool Lia ZArith DecimalString.
Import ListNotations.
Open Scope Q_scope.
Open Scope string_scope.

Set Implicit Arguments.

(** ** Numbers *)

Definition number := Q.

(** [x < y] on numbers. *)
Definition Qltb (x y : number) : bool := negb (Qle_bool y x).

(** Truthiness of a number: everything but zero. *)
Definition truthy (x : number) : bool := negb (Qeq_bool x 0).

(** ** interfaces.ts *)

Module CoverageFile.
Record t := mk
  { relative : string;
    absolute : string;
    coverage : number }.
End CoverageFile.

(** [Files] is an object used as a dictionary.  [Object.entries] walks it
    in a fixed order, which is the order of the rows of the report, so it
    is an association list in that order.  An object has each key once:
    [wf_files]. *)
Definition Files := list (string * CoverageFile.t).

Definition wf_files (fs : Files) : Prop := NoDup (map fst fs).

(** [files[hash]] *)
Fixpoint lookup (hash : string) (fs : Files) : option CoverageFile.t :=
  match fs with
  | [] => None
  | (k, f) :: rest => if String.eqb hash k then Some f else lookup hash rest
  end.

Module Coverage.
Record t := mk
  { files : Files;
    coverage : number;
    timestamp : number;
    basePath : string }.
End Coverage.

Record Inputs := mkInputs
  { token : string;
    filename : string;
    badge : bool;
    overallCoverageFailThreshold : number;
    fileCoverageErrorMin : number;
    fileCoverageWarningMax : number;
    failOnNegativeDifference : bool;
    markdownFilename : string;
    artifactDownloadWorkflowNames : option (list string);
    artifactName : string;
    reportOverallCoverage : bool;
    reportPackageCoverage : bool;
    failOnNegativeOverallDifference : bool }.

(** ** Effects *)

(** A row handed to [summary.addTable]: [string[]] or
    [{data: string; header: boolean}[]]. *)
Inductive row :=
| Cells (cells : list string)
| HeaderCells (cells : list (string * bool)).

(** What [core.summary] has buffered. *)
Inductive block :=
| Heading (text : string)
| Image (src alt : string)
| Break
| Raw (text : string)
| Table (rows : list row).

Inductive output_value :=
| OString (s : string)
| ONumber (n : number).

(** What a run does to the outside. *)
Inductive event :=
| SetFailed (message : string)
| Warning (message : string)
| Info (message : string)
| SetOutput (name : string) (value : output_value)
| WriteFile (path data : string)
| SummaryWrite (data : string)
| DownloadArtifacts (name : string)
| UploadArtifacts (paths : list string) (name : string).

Record state := mkState
  { log : list event;
    buffer : list block }.

Inductive outcome (A : Type) :=
| Return (a : A)
| Throw (message : string).
Arguments Throw {A} message.

Definition M (A : Type) := state -> state * outcome A.

Definition ret {A} (a : A) : M A := fun s => (s, Return a).

Definition bind {A B} (m : M A) (k : A -> M B) : M B :=
  fun s =>
    match m s with
    | (s', Return a) => k a s'
    | (s', Throw e) => (s', Throw e)
    end.

Definition throw {A} (message : string) : M A := fun s => (s, Throw message).

(** [try { m } catch (err) { handler(err.message) }] *)
Definition try_catch {A} (m : M A) (handler : string -> M A) : M A :=
  fun s =>
    match m s with
    | (s', Return a) => (s', Return a)
    | (s', Throw e) => handler e s'
    end.

Declare Scope monad_scope.
Delimit Scope monad_scope with monad.
Notation "x <- m ;; k" := (bind m (fun x => k))
  (at level 61, m at next level, right associativity) : monad_scope.
Notation "m ;; k" := (bind m (fun _ => k))
  (at level 61, right associativity) : monad_scope.
Open Scope monad_scope.

Definition emit (e : event) : M unit :=
  fun s => (mkState (log s ++ [e])%list (buffer s), Return tt).

(** An effectful call on the outside: the call is recorded, its result is
    what the outside answers. *)
Definition call {A} (e : event) (answer : outcome A) : M A :=
  fun s => (mkState (log s ++ [e])%list (buffer s), answer).

Definition summary_add (b : block) : M unit :=
  fun s => (mkState (log s) (buffer s ++ [b])%list, Return tt).

Definition when (c : bool) (m : M unit) : M unit := if c then m else ret tt.

Fixpoint mapM {A B} (f : A -> M B) (l : list A) : M (list B) :=
  match l with
  | [] => ret []
  | a :: rest =>
      b <- f a ;;
      bs <- mapM f rest ;;
      ret (b :: bs)
  end.

(** ** The host: JavaScript built-ins and the packages main.ts imports *)

Inductive Tier := Ok | Warn | Error | Neutral.

Class Host := mkHost
  { (** [`${n}`] and [n.toString()] for a number *)
    Number_toString : number -> string;
    encodeURIComponent : string -> string;
    (** [markdownTable] of the package markdown-table *)
    markdownTable : list (list string) -> string;
    (** [path.join] *)
    path_join : string -> string -> string;
    (** [summary.stringify()] on the buffered blocks *)
    Summary_stringify : list block -> string;
    (** ./utils, not in the repository: the text in which a table cell
        shows a classified percentage *)
    tierText : Tier -> option number -> string;
    (** ./utils, not in the repository; a missing argument is [None] *)
    colorizeBadgeByThreshold :
      option number -> option number -> option number -> string }.

(** [`${x}`] for [x : number | null] *)
Definition template `{Host} (x : option number) : string :=
  match x with
  | Some n => Number_toString n
  | None => "null"
  end.

(** ** ./utils *)

(** Modelled from the spec: [roundPercentage] of ./utils is not in the
    repository.  "Percentage values are always rendered rounded to 2
    decimal places; rounding uses standard round-half-away-from-zero." *)
Definition roundPercentage (percentage : number) : number :=
  let scaled := percentage * 100 in
  if Qle_bool 0 scaled
  then inject_Z (Qfloor (scaled + (1 # 2))) / 100
  else inject_Z (- Qfloor (- scaled + (1 # 2))) / 100.

(** Modelled from the spec: the threshold classifier behind
    [colorizePercentageByThreshold] of ./utils is not in the repository.
    "If value is null: tier = Neutral.  If value < errorCeiling: tier =
    Error.  Else if value < warningCeiling: tier = Warning.  Else: tier =
    Ok." *)
Definition classify (value : option number)
    (warningCeiling errorCeiling : number) : Tier :=
  match value with
  | None => Neutral
  | Some v =>
      if Qltb v errorCeiling then Error
      else if Qltb v warningCeiling then Warn
      else Ok
  end.

(** Modelled from the spec: "Default ceilings when unspecified:
    warningCeiling = 80, errorCeiling = 50". *)
Definition defaultWarningCeiling : number := 80.
Definition defaultErrorCeiling : number := 50.

Definition orDefault (d : number) (x : option number) : number :=
  match x with
  | Some v => v
  | None => d
  end.

(** Modelled from the spec: [colorizePercentageByThreshold] of ./utils is
    not in the repository.  It classifies the value and renders the tier
    with the value; main.ts calls it as (value, warning ceiling, error
    ceiling) or with the value alone. *)
Definition colorizePercentageByThreshold `{Host} (percentage : option number)
    (warningCeiling errorCeiling : option number) : string :=
  tierText
    (classify percentage
       (orDefault defaultWarningCeiling warningCeiling)
       (orDefault defaultErrorCeiling errorCeiling))
    percentage.

(** ** The surroundings of a run *)

Record World := mkWorld
  { (** [core.getInput] *)
    getInput : string -> string;
    (** [process.env] *)
    env : string -> option string;
    (** ./utils, not in the repository *)
    checkFileExists : string -> bool;
    downloadArtifacts : string -> outcome (option string);
    parseCoverage : string -> outcome (option Coverage.t);
    uploadArtifacts : list string -> string -> outcome unit;
    getInputs : Inputs;
    (** fs/promises *)
    writeFile : string -> string -> outcome unit;
    (** [summary.write()], given the text it writes *)
    summary_write : string -> outcome unit }.

(** [const {NAME = ''} = process.env] *)
Definition envOr (w : World) (name : string) : string :=
  match env w name with
  | Some v => v
  | None => ""
  end.

(** ** main.ts *)

Section Main.

Context `{Host}.

Definition core_setFailed (message : string) : M unit := emit (SetFailed message).
Definition core_warning (message : string) : M unit := emit (Warning message).
Definition core_info (message : string) : M unit := emit (Info message).
Definition core_setOutput (name : string) (value : output_value) : M unit :=
  emit (SetOutput name value).

(** Lines 100-102: the [baseCoveragePercentage] of a file. *)
Definition baseCoveragePercentage (baseCoverage : Coverage.t) (hash : string)
  : option number :=
  match lookup hash (Coverage.files baseCoverage) with
  | Some baseFile => Some (CoverageFile.coverage baseFile)
  | None => None
  end.

(** Lines 104-106: the [differencePercentage] of a file. *)
Definition differencePercentage (baseCoverage : Coverage.t) (hash : string)
    (file : CoverageFile.t) : option number :=
  match baseCoveragePercentage baseCoverage hash with
  | Some b =>
      if truthy b
      then Some (roundPercentage (CoverageFile.coverage file - b))
      else None
  | None => None
  end.

(** [x !== null && x < 0] *)
Definition isNegative (x : option number) : bool :=
  match x with
  | Some d => Qltb d 0
  | None => false
  end.

(** Lines 88-132: the function mapped over
    [Object.entries(headCoverage.files)]. *)
Definition fileRow (i : Inputs) (headCoverage : Coverage.t)
    (baseCoverage : option Coverage.t) (entry : string * CoverageFile.t)
  : M (list string) :=
  let '(hash, file) := entry in
  match baseCoverage with
  | None =>
      ret [ CoverageFile.relative file;
            colorizePercentageByThreshold
              (Some (CoverageFile.coverage file))
              (Some (fileCoverageWarningMax i))
              (Some (fileCoverageErrorMin i)) ]
  | Some baseCoverage =>
      let base := baseCoveragePercentage baseCoverage hash in
      let difference := differencePercentage baseCoverage hash file in
      when (failOnNegativeDifference i && isNegative difference)
        (match lookup hash (Coverage.files headCoverage) with
         | Some headFile =>
             core_setFailed
               (CoverageFile.relative headFile ++ " coverage difference was "
                  ++ template difference ++ "%")
         | None => throw "Cannot read properties of undefined (reading 'relative')"
         end) ;;
      ret [ CoverageFile.relative file;
            colorizePercentageByThreshold base
              (Some (fileCoverageWarningMax i))
              (Some (fileCoverageErrorMin i));
            colorizePercentageByThreshold
              (Some (CoverageFile.coverage file))
              (Some (fileCoverageWarningMax i))
              (Some (fileCoverageErrorMin i));
            colorizePercentageByThreshold difference None None ]
  end.

(** Lines 140-142 *)
Definition overallDifferencePercentage (headCoverage : Coverage.t)
    (baseCoverage : option Coverage.t) : option number :=
  match baseCoverage with
  | Some baseCoverage =>
      Some (roundPercentage
              (Coverage.coverage headCoverage - Coverage.coverage baseCoverage))
  | None => None
  end.

(** One badge of the overall block:
    [![label](https://img.shields.io/badge/...?style=for-the-badge)] *)
Definition overallBadge (label value color : string) : string :=
  "![" ++ label ++ "](https://img.shields.io/badge/"
    ++ encodeURIComponent (label ++ "-" ++ value ++ "%-" ++ color)
    ++ "?style=for-the-badge)".

(** The rows [generateOverallCoverageReport] hands to [markdownTable]. *)
Definition overallRows (current : number) (baseline difference : option number)
    (thresholdMin thresholdMax : number) : list (list string) :=
  let currentRow :=
    [ "Current";
      overallBadge "Current" (Number_toString current)
        (colorizeBadgeByThreshold (Some current)
           (Some thresholdMin) (Some thresholdMax)) ] in
  match baseline with
  | Some b =>
      if truthy b then
        [ [""; ""];
          currentRow;
          [ "Baseline";
            overallBadge "Baseline" (Number_toString b)
              (colorizeBadgeByThreshold (Some b)
                 (Some thresholdMin) (Some thresholdMax)) ];
          [ "Difference";
            overallBadge "Difference" (template difference)
              (colorizeBadgeByThreshold difference None None) ] ]
      else [ [""; ""]; currentRow ]
  | None => [ [""; ""]; currentRow ]
  end.

Definition generateOverallCoverageReport (current : number)
    (baseline difference : option number)
    (thresholdMin thresholdMax : number) : string :=
  markdownTable (overallRows current baseline difference thresholdMin thresholdMax).

Definition generatePackageCoverageReport (baseCoverage : option Coverage.t)
    (map : list (list string)) : list row :=
  let headers :=
    match baseCoverage with
    | None => [("Package", true); ("Coverage", true)]
    | Some _ =>
        [("Package", true); ("Base Coverage", true);
         ("New Coverage", true); ("Difference", true)]
    end in
  HeaderCells headers :: List.map Cells map.

Definition generateMarkdown (w : World) (headCoverage : Coverage.t)
    (baseCoverage : option Coverage.t) : M unit :=
  let i := getInputs w in
  map <- mapM (fileRow i headCoverage baseCoverage)
              (Coverage.files headCoverage) ;;
  when (Qltb (Coverage.coverage headCoverage) (overallCoverageFailThreshold i))
    (core_setFailed
       ("FAIL: Overall coverage of "
          ++ Number_toString (Coverage.coverage headCoverage)
          ++ "% below minimum threshold of "
          ++ Number_toString (overallCoverageFailThreshold i) ++ "%")) ;;
  let overallDifference := overallDifferencePercentage headCoverage baseCoverage in
  when (failOnNegativeOverallDifference i && isNegative overallDifference)
    (core_setFailed
       ("Coverage dropped by " ++ template overallDifference ++ "%")) ;;
  summary_add (Heading "Code Coverage Report") ;;
  when (badge i)
    (summary_add
       (Image
          ("https://img.shields.io/badge/"
             ++ encodeURIComponent
                  ("Code Coverage-"
                     ++ Number_toString (Coverage.coverage headCoverage) ++ "%-"
                     ++ colorizeBadgeByThreshold
                          (Some (Coverage.coverage headCoverage))
                          (Some (fileCoverageErrorMin i))
                          (Some (fileCoverageWarningMax i)))
             ++ "?style=flat")
          "Code Coverage")) ;;
  when (reportOverallCoverage i)
    (summary_add Break ;;
     summary_add
       (Raw (generateOverallCoverageReport
               (Coverage.coverage headCoverage)
               (option_map Coverage.coverage baseCoverage)
               overallDifference
               (fileCoverageErrorMin i)
               (fileCoverageWarningMax i))) ;;
     summary_add Break) ;;
  when (reportPackageCoverage i)
    (summary_add (Table (generatePackageCoverageReport baseCoverage map)) ;;
     summary_add Break ;;
     summary_add
       (Raw ("<i>Minimum allowed coverage is</i> <code>"
               ++ Number_toString (overallCoverageFailThreshold i)
               ++ "%</code>, this run produced</i> <code>"
               ++ Number_toString (Coverage.coverage headCoverage)
               ++ "%</code>"))) ;;
  core_info ("Writing results to " ++ markdownFilename i ++ ".md") ;;
  (fun s =>
     call (WriteFile (markdownFilename i ++ ".md") (Summary_stringify (buffer s)))
          (writeFile w (markdownFilename i ++ ".md") (Summary_stringify (buffer s)))
          s) ;;
  core_setOutput "file" (OString (markdownFilename i ++ ".md")) ;;
  core_setOutput "coverage" (ONumber (Coverage.coverage headCoverage)) ;;
  core_info "Writing job summary" ;;
  (fun s =>
     match summary_write w (Summary_stringify (buffer s)) with
     | Return _ =>
         (mkState (log s ++ [SummaryWrite (Summary_stringify (buffer s))])%list [],
          Return tt)
     | Throw e =>
         (mkState (log s ++ [SummaryWrite (Summary_stringify (buffer s))])%list
                  (buffer s),
          Throw e)
     end).

Definition run (w : World) : M unit :=
  try_catch
    (let filename := getInput w "filename" in
     if negb (checkFileExists w filename) then
       core_setFailed ("Unable to access " ++ filename)
     else
       match env w "GITHUB_EVENT_NAME" with
       | None => ret tt
       | Some kind =>
           if String.eqb kind "pull_request" then
             let GITHUB_BASE_REF := envOr w "GITHUB_BASE_REF" in
             artifactPath <- call (DownloadArtifacts GITHUB_BASE_REF)
                                  (downloadArtifacts w GITHUB_BASE_REF) ;;
             baseCoverage <-
               match artifactPath with
               | Some dir => (fun s => (s, parseCoverage w (path_join dir filename)))
               | None => ret None
               end ;;
             headCoverage <- (fun s => (s, parseCoverage w filename)) ;;
             match headCoverage with
             | None => core_setFailed ("Unable to process " ++ filename)
             | Some headCoverage =>
                 match baseCoverage with
                 | None =>
                     core_warning
                       (GITHUB_BASE_REF ++ " is missing " ++ filename
                          ++ ". See documentation on how to add this") ;;
                     generateMarkdown w headCoverage None
                 | Some baseCoverage =>
                     generateMarkdown w headCoverage (Some baseCoverage)
                 end
             end
           else if String.eqb kind "push" || String.eqb kind "schedule"
                   || String.eqb kind "workflow_dispatch" then
             let GITHUB_REF_NAME := envOr w "GITHUB_REF_NAME" in
             core_info ("Uploading " ++ filename) ;;
             call (UploadArtifacts [filename] GITHUB_REF_NAME)
                  (uploadArtifacts w [filename] GITHUB_REF_NAME) ;;
             core_info "Complete"
           else ret tt
       end)
    (fun message => core_setFailed message).

End Main.

(** ** What a call of [generateMarkdown] amounts to

    The pure content of the run: the failure signals, in the order they
    are raised, and the blocks of the report. *)

Section Content.

Context `{Host}.

(** The signal [fileRow] raises for one entry. *)
Definition fileSignals (i : Inputs) (headCoverage : Coverage.t)
    (baseCoverage : option Coverage.t) (entry : string * CoverageFile.t)
  : list event :=
  match baseCoverage with
  | None => []
  | Some b =>
      let difference := differencePercentage b (fst entry) (snd entry) in
      if failOnNegativeDifference i && isNegative difference then
        match lookup (fst entry) (Coverage.files headCoverage) with
        | Some headFile =>
            [SetFailed
               (CoverageFile.relative headFile ++ " coverage difference was "
                  ++ template difference ++ "%")]
        | None => []
        end
      else []
  end.

(** The cells [fileRow] returns for one entry. *)
Definition fileCells (i : Inputs) (baseCoverage : option Coverage.t)
    (entry : string * CoverageFile.t) : list string :=
  let file := snd entry in
  let own :=
    colorizePercentageByThreshold (Some (CoverageFile.coverage file))
      (Some (fileCoverageWarningMax i)) (Some (fileCoverageErrorMin i)) in
  match baseCoverage with
  | None => [CoverageFile.relative file; own]
  | Some b =>
      [ CoverageFile.relative file;
        colorizePercentageByThreshold (baseCoveragePercentage b (fst entry))
          (Some (fileCoverageWarningMax i)) (Some (fileCoverageErrorMin i));
        own;
        colorizePercentageByThreshold
          (differencePercentage b (fst entry) file) None None ]
  end.

Definition thresholdSignal (i : Inputs) (headCoverage : Coverage.t) : list event :=
  if Qltb (Coverage.coverage headCoverage) (overallCoverageFailThreshold i) then
    [SetFailed
       ("FAIL: Overall coverage of "
          ++ Number_toString (Coverage.coverage headCoverage)
          ++ "% below minimum threshold of "
          ++ Number_toString (overallCoverageFailThreshold i) ++ "%")]
  else [].

Definition overallSignal (i : Inputs) (headCoverage : Coverage.t)
    (baseCoverage : option Coverage.t) : list event :=
  let d := overallDifferencePercentage headCoverage baseCoverage in
  if failOnNegativeOverallDifference i && isNegative d then
    [SetFailed ("Coverage dropped by " ++ template d ++ "%")]
  else [].

Definition badgeBlocks (i : Inputs) (headCoverage : Coverage.t) : list block :=
  if badge i then
    [Image
       ("https://img.shields.io/badge/"
          ++ encodeURIComponent
               ("Code Coverage-"
                  ++ Number_toString (Coverage.coverage headCoverage) ++ "%-"
                  ++ colorizeBadgeByThreshold
                       (Some (Coverage.coverage headCoverage))
                       (Some (fileCoverageErrorMin i))
                       (Some (fileCoverageWarningMax i)))
          ++ "?style=flat")
       "Code Coverage"]
  else [].

Definition overallBlocks (i : Inputs) (headCoverage : Coverage.t)
    (baseCoverage : option Coverage.t) : list block :=
  if reportOverallCoverage i then
    [ Break;
      Raw (generateOverallCoverageReport
             (Coverage.coverage headCoverage)
             (option_map Coverage.coverage baseCoverage)
             (overallDifferencePercentage headCoverage baseCoverage)
             (fileCoverageErrorMin i) (fileCoverageWarningMax i));
      Break ]
  else [].

Definition packageBlocks (i : Inputs) (headCoverage : Coverage.t)
    (baseCoverage : option Coverage.t) : list block :=
  if reportPackageCoverage i then
    [ Table (generatePackageCoverageReport baseCoverage
               (List.map (fileCells i baseCoverage) (Coverage.files headCoverage)));
      Break;
      Raw ("<i>Minimum allowed coverage is</i> <code>"
             ++ Number_toString (overallCoverageFailThreshold i)
             ++ "%</code>, this run produced</i> <code>"
             ++ Number_toString (Coverage.coverage headCoverage)
             ++ "%</code>") ]
  else [].

Definition reportBlocks (i : Inputs) (headCoverage : Coverage.t)
    (baseCoverage : option Coverage.t) : list block :=
  (Heading "Code Coverage Report" :: badgeBlocks i headCoverage
     ++ overallBlocks i headCoverage baseCoverage
     ++ packageBlocks i headCoverage baseCoverage)%list.

(** Everything logged up to the write of the report file. *)
Definition signals (i : Inputs) (headCoverage : Coverage.t)
    (baseCoverage : option Coverage.t) : list event :=
  (flat_map (fileSignals i headCoverage baseCoverage) (Coverage.files headCoverage)
     ++ thresholdSignal i headCoverage
     ++ overallSignal i headCoverage baseCoverage)%list.

(** The text [generateMarkdown] writes to the report file, and where. *)
Definition reportText (w : World) (headCoverage : Coverage.t)
    (baseCoverage : option Coverage.t) (s : state) : string :=
  Summary_stringify
    (buffer s ++ reportBlocks (getInputs w) headCoverage baseCoverage).

Definition reportPath (w : World) : string :=
  markdownFilename (getInputs w) ++ ".md".

End Content.

(** The messages of the failures signalled in a log. *)
Fixpoint failures (l : list event) : list string :=
  match l with
  | [] => []
  | SetFailed m :: rest => m :: failures rest
  | _ :: rest => failures rest
  end.

(** The same surroundings with other inputs. *)
Definition withInputs (w : World) (i : Inputs) : World :=
  mkWorld (getInput w) (env w) (checkFileExists w) (downloadArtifacts w)
    (parseCoverage w) (uploadArtifacts w) i (writeFile w) (summary_write w).

Definition setFailOnNegativeOverallDifference (i : Inputs) (b : bool) : Inputs :=
  mkInputs (token i) (filename i) (badge i) (overallCoverageFailThreshold i)
    (fileCoverageErrorMin i) (fileCoverageWarningMax i)
    (failOnNegativeDifference i) (markdownFilename i)
    (artifactDownloadWorkflowNames i) (artifactName i)
    (reportOverallCoverage i) (reportPackageCoverage i) b.

Definition setFileThresholds (i : Inputs) (errorMin warningMax : number) : Inputs :=
  mkInputs (token i) (filename i) (badge i) (overallCoverageFailThreshold i)
    errorMin warningMax
    (failOnNegativeDifference i) (markdownFilename i)
    (artifactDownloadWorkflowNames i) (artifactName i)
    (reportOverallCoverage i) (reportPackageCoverage i)
    (failOnNegativeOverallDifference i).

(** The same surroundings with another answer of the artifact store, and
    of the file system. *)
Definition withDownloadArtifacts (w : World)
    (answer : string -> outcome (option string)) : World :=
  mkWorld (getInput w) (env w) (checkFileExists w) answer
    (parseCoverage w) (uploadArtifacts w) (getInputs w) (writeFile w)
    (summary_write w).

Definition withWriteFile (w : World)
    (answer : string -> string -> outcome unit) : World :=
  mkWorld (getInput w) (env w) (checkFileExists w) (downloadArtifacts w)
    (parseCoverage w) (uploadArtifacts w) (getInputs w) answer
    (summary_write w).

(** The events of writing a report: everything but the traffic with the
    artifact store and warnings. *)
Definition reportEvent (e : event) : bool :=
  match e with
  | SetFailed _ | Info _ | SetOutput _ _ | WriteFile _ _ | SummaryWrite _ => true
  | Warning _ | DownloadArtifacts _ | UploadArtifacts _ _ => false
  end.

(** ** A sample host and sample surroundings, for running the model *)

Module Sample.

Definition Z_toString (z : Z) : string := NilZero.string_of_int (Z.to_int z).

(** Decimal text of a number, cut after two places, without trailing
    zeros. *)
Definition decimal (q : number) : string :=
  let h := Qfloor (Qabs q * 100) in
  let sign := if Qltb q 0 && (0 <? h)%Z then "-" else "" in
  let whole := (h / 100)%Z in
  let part := (h mod 100)%Z in
  sign ++ Z_toString whole
    ++ (if (part =? 0)%Z then ""
        else if (part <? 10)%Z then ".0" ++ Z_toString part
        else if (part mod 10 =? 0)%Z then "." ++ Z_toString (part / 10)
        else "." ++ Z_toString part).

Definition tierMark (t : Tier) : string :=
  match t with
  | Ok => "green"
  | Warn => "yellow"
  | Error => "red"
  | Neutral => "gray"
  end.

Definition rowText (cells : list string) : string :=
  "|" ++ String.concat "|" cells ++ "|".

Definition blockText (b : block) : string :=
  match b with
  | Heading t => "<h1>" ++ t ++ "</h1>"
  | Image src alt => "<img src='" ++ src ++ "' alt='" ++ alt ++ "'>"
  | Break => "<br>"
  | Raw t => t
  | Table rows =>
      String.concat ";"
        (List.map (fun r =>
                     match r with
                     | Cells c => rowText c
                     | HeaderCells c => rowText (List.map fst c)
                     end) rows)
  end.

#[global] Instance host : Host :=
  {| Number_toString := decimal;
     encodeURIComponent := fun s => s;
     markdownTable := fun rows => String.concat ";" (List.map rowText rows);
     path_join := fun a b => a ++ "/" ++ b;
     Summary_stringify := fun bs => String.concat "" (List.map blockText bs);
     tierText := fun t v =>
       tierMark t ++ " "
         ++ match v with Some n => decimal n | None => "0" end ++ "%";
     colorizeBadgeByThreshold := fun v thresholdMin thresholdMax =>
       tierMark (classify v (orDefault defaultWarningCeiling thresholdMax)
                          (orDefault defaultErrorCeiling thresholdMin)) |}.

Definition inputs (failFile failOverall : bool) (threshold : number) : Inputs :=
  mkInputs "token" "cov.xml" true threshold 50 80 failFile
    "code-coverage-results" None "coverage" true true failOverall.

(** Surroundings in which every outside call succeeds. *)
Definition world (kind : option string) (present : bool) (i : Inputs)
    (head base : option Coverage.t) : World :=
  {| getInput := fun name => if String.eqb name "filename" then "cov.xml" else "";
     env := fun name =>
       if String.eqb name "GITHUB_EVENT_NAME" then kind
       else if String.eqb name "GITHUB_BASE_REF" then Some "main"
       else if String.eqb name "GITHUB_REF_NAME" then Some "feature"
       else None;
     checkFileExists := fun _ => present;
     downloadArtifacts := fun _ =>
       Return (match base with Some _ => Some "artifacts" | None => None end);
     parseCoverage := fun path =>
       Return (if String.eqb path "cov.xml" then head else base);
     uploadArtifacts := fun _ _ => Return tt;
     getInputs := i;
     writeFile := fun _ _ => Return tt;
     summary_write := fun _ => Return tt |}.

Definition file (name : string) (pct : number) : CoverageFile.t :=
  CoverageFile.mk name ("/repo/" ++ name) pct.

Definition snapshot (fs : Files) (overall : number) : Coverage.t :=
  Coverage.mk fs overall 0 "/repo".

Definition start : state := mkState [] [].

(** A head snapshot and baselines for it. *)
Definition head : Coverage.t :=
  snapshot [("h1", file "a.ts" 90); ("h2", file "b.ts" 40); ("h3", file "c.ts" 10)] 70.

(** Both a.ts and b.ts were better covered; c.ts is new. *)
Definition base : Coverage.t :=
  snapshot [("h1", file "a.ts" 95); ("h2", file "b.ts" 45)] 75.

(** b.ts had no coverage at all, and neither had the whole. *)
Definition base_zero : Coverage.t :=
  snapshot [("h1", file "a.ts" 95); ("h2", file "b.ts" 0)] 0.

(** A thousandth of a point above a head of 70 percent. *)
Definition base_close : Coverage.t := snapshot [] (70001 # 1000).

Definition head_plain : Coverage.t := snapshot [] 70.

Definition head_low : Coverage.t := snapshot [("h1", file "a.ts" 40)] 40.

(** The baseline with a file the head no longer has. *)
Definition base_with_deleted : Coverage.t :=
  snapshot [("h9", file "old.ts" 100); ("h1", file "a.ts" 95); ("h2", file "b.ts" 45)] 75.

(** A pull request whose every outside call succeeds. *)
Definition pull_request (i : Inputs) (head base : option Coverage.t) : World :=
  world (Some "pull_request") true i head base.

End Sample.

(** * Properties *)

Section Properties.

Context `{Host}.

(** ** Numbers and dictionaries *)

Lemma Qltb_lt (x y : number) : Qltb x y = true <-> x < y.
Proof.
  unfold Qltb. rewrite negb_true_iff. split.
  - intros E. apply Qnot_le_lt. intros L.
    apply Qle_bool_iff in L. congruence.
  - intros L. destruct (Qle_bool y x) eqn:E; [|reflexivity].
    apply Qle_bool_iff in E. exfalso. exact (Qlt_not_le _ _ L E).
Qed.

Lemma Qltb_ge (x y : number) : Qltb x y = false <-> y <= x.
Proof.
  unfold Qltb. rewrite negb_false_iff. apply Qle_bool_iff.
Qed.

Lemma truthy_zero (x : number) : truthy x = false <-> x == 0.
Proof.
  unfold truthy. rewrite negb_false_iff. apply Qeq_bool_iff.
Qed.

Lemma truthy_nonzero (x : number) : truthy x = true <-> ~ x == 0.
Proof.
  unfold truthy. rewrite negb_true_iff. split.
  - intros E Z. apply Qeq_bool_iff in Z. congruence.
  - intros N. destruct (Qeq_bool x 0) eqn:E; [|reflexivity].
    apply Qeq_bool_iff in E. contradiction.
Qed.

Lemma lookup_In (hash : string) (file : CoverageFile.t) (fs : Files) :
  In (hash, file) fs -> lookup hash fs <> None.
Proof.
  induction fs as [|[k f] rest IH]; simpl; [tauto|].
  intros [E|I].
  - injection E as -> ->. rewrite String.eqb_refl. discriminate.
  - destruct (String.eqb hash k); [discriminate|auto].
Qed.

Lemma lookup_None (hash : string) (fs : Files) :
  ~ In hash (map fst fs) <-> lookup hash fs = None.
Proof.
  induction fs as [|[k f] rest IH]; simpl; [tauto|].
  destruct (String.eqb_spec hash k) as [->|N].
  - split; [intros A; exfalso; apply A; auto | discriminate].
  - rewrite <- IH. split.
    + intros A B. apply A. auto.
    + intros A [B|B]; [congruence|auto].
Qed.

Lemma lookup_wf (hash : string) (file : CoverageFile.t) (fs : Files) :
  wf_files fs -> In (hash, file) fs -> lookup hash fs = Some file.
Proof.
  unfold wf_files.
  induction fs as [|[k f] rest IH]; simpl; [tauto|].
  intros ND [E|I].
  - injection E as -> ->. rewrite String.eqb_refl. reflexivity.
  - inversion ND as [|? ? NI ND']; subst.
    destruct (String.eqb_spec hash k) as [->|N]; [|auto].
    exfalso. apply NI. change k with (fst (k, file)). apply in_map. exact I.
Qed.

(** ** The monad *)

Lemma state_eta (s : state) : mkState (log s) (buffer s) = s.
Proof. destruct s; reflexivity. Qed.

Lemma failures_app (l1 l2 : list event) :
  failures (l1 ++ l2) = (failures l1 ++ failures l2)%list.
Proof.
  induction l1 as [|e l1 IH]; simpl; [reflexivity|].
  destruct e; simpl; rewrite IH; reflexivity.
Qed.

(** ** The rows of the per-file table *)

Lemma fileRow_run (i : Inputs) (headCoverage : Coverage.t)
    (baseCoverage : option Coverage.t) (entry : string * CoverageFile.t)
    (s : state) :
  lookup (fst entry) (Coverage.files headCoverage) <> None ->
  fileRow i headCoverage baseCoverage entry s
  = (mkState (log s ++ fileSignals i headCoverage baseCoverage entry) (buffer s),
     Return (fileCells i baseCoverage entry)).
Proof.
  destruct entry as [hash file]. simpl fst. intros Hhead.
  unfold fileRow, fileSignals, fileCells. simpl fst. simpl snd.
  destruct baseCoverage as [b|].
  - unfold bind, when.
    destruct (failOnNegativeDifference i && isNegative (differencePercentage b hash file)).
    + destruct (lookup hash (Coverage.files headCoverage)) as [hf|]; [|congruence].
      reflexivity.
    + unfold ret. rewrite app_nil_r, state_eta. reflexivity.
  - unfold ret. rewrite app_nil_r, state_eta. reflexivity.
Qed.

Lemma mapM_fileRow_run (i : Inputs) (headCoverage : Coverage.t)
    (baseCoverage : option Coverage.t) (entries : Files) (s : state) :
  (forall e, In e entries ->
             lookup (fst e) (Coverage.files headCoverage) <> None) ->
  mapM (fileRow i headCoverage baseCoverage) entries s
  = (mkState (log s ++ flat_map (fileSignals i headCoverage baseCoverage) entries)
             (buffer s),
     Return (List.map (fileCells i baseCoverage) entries)).
Proof.
  revert s. induction entries as [|e rest IH]; intros s Hall.
  - simpl. unfold ret. rewrite app_nil_r, state_eta. reflexivity.
  - simpl. unfold bind at 1.
    rewrite fileRow_run by (apply Hall; left; reflexivity).
    unfold bind at 1. rewrite IH by (intros e' I; apply Hall; right; exact I).
    unfold ret. simpl. rewrite <- app_assoc. reflexivity.
Qed.

Lemma generateMarkdown_run (w : World) (headCoverage : Coverage.t)
    (baseCoverage : option Coverage.t) (s : state) :
  let i := getInputs w in
  let text := reportText w headCoverage baseCoverage s in
  let blocks := (buffer s ++ reportBlocks i headCoverage baseCoverage)%list in
  let written :=
    (log s ++ signals i headCoverage baseCoverage
       ++ [Info ("Writing results to " ++ reportPath w);
           WriteFile (reportPath w) text])%list in
  let published :=
    (written ++ [SetOutput "file" (OString (reportPath w));
                 SetOutput "coverage" (ONumber (Coverage.coverage headCoverage));
                 Info "Writing job summary";
                 SummaryWrite text])%list in
  generateMarkdown w headCoverage baseCoverage s
  = match writeFile w (reportPath w) text with
    | Throw e => (mkState written blocks, Throw e)
    | Return _ =>
        match summary_write w text with
        | Return _ => (mkState published [], Return tt)
        | Throw e => (mkState published blocks, Throw e)
        end
    end.
Proof.
  intros i text blocks written published.
  unfold generateMarkdown. fold i. unfold bind at 1.
  rewrite mapM_fileRow_run
    by (intros [k f] I; simpl; exact (lookup_In _ _ _ I)).
  subst text blocks written published.
  unfold reportText, reportPath, signals, reportBlocks, thresholdSignal,
    overallSignal, badgeBlocks, overallBlocks, packageBlocks. fold i.
  destruct (Qltb (Coverage.coverage headCoverage) (overallCoverageFailThreshold i));
    destruct (failOnNegativeOverallDifference i
              && isNegative (overallDifferencePercentage headCoverage baseCoverage));
    destruct (badge i); destruct (reportOverallCoverage i);
    destruct (reportPackageCoverage i);
    cbn [when bind ret emit call summary_add core_setFailed core_info
         core_setOutput log buffer fst snd app];
    rewrite <- ?app_assoc; cbn [app];
    destruct (writeFile w _ _); cbn [log buffer]; rewrite <- ?app_assoc; cbn [app];
    try reflexivity;
    destruct (summary_write w _); rewrite <- ?app_assoc; cbn [app]; reflexivity.
Qed.

(** The log of a call whose report file could be written. *)
Lemma generateMarkdown_log (w : World) (headCoverage : Coverage.t)
    (baseCoverage : option Coverage.t) (s : state) :
  writeFile w (reportPath w) (reportText w headCoverage baseCoverage s)
  = Return tt ->
  log (fst (generateMarkdown w headCoverage baseCoverage s))
  = (log s ++ signals (getInputs w) headCoverage baseCoverage
       ++ [Info ("Writing results to " ++ reportPath w);
           WriteFile (reportPath w) (reportText w headCoverage baseCoverage s);
           SetOutput "file" (OString (reportPath w));
           SetOutput "coverage" (ONumber (Coverage.coverage headCoverage));
           Info "Writing job summary";
           SummaryWrite (reportText w headCoverage baseCoverage s)])%list.
Proof.
  intros Hwrite. rewrite generateMarkdown_run, Hwrite.
  destruct (summary_write w _); simpl; rewrite <- ?app_assoc; reflexivity.
Qed.

(** Whatever the outside answers, the signals are raised and the write of
    the report file is attempted. *)
Lemma generateMarkdown_log_prefix (w : World) (headCoverage : Coverage.t)
    (baseCoverage : option Coverage.t) (s : state) :
  exists rest,
    log (fst (generateMarkdown w headCoverage baseCoverage s))
    = (log s ++ signals (getInputs w) headCoverage baseCoverage
         ++ [Info ("Writing results to " ++ reportPath w);
             WriteFile (reportPath w) (reportText w headCoverage baseCoverage s)]
         ++ rest)%list.
Proof.
  rewrite generateMarkdown_run.
  destruct (writeFile w _ _); [destruct (summary_write w _)|]; simpl.
  - eexists. rewrite <- ?app_assoc. simpl. reflexivity.
  - eexists. rewrite <- ?app_assoc. simpl. reflexivity.
  - exists []. rewrite <- ?app_assoc. simpl. reflexivity.
Qed.

(** ** Regression and threshold policies *)

(** C1.  With the file-level toggle on and a baseline present, every file
    of the head snapshot whose computed difference is negative has its
    failure signalled, naming the file and the difference; the run goes on
    all the same: the report file is written and both outputs are set,
    and the call returns normally when the job summary can be written. *)
Theorem file_regression_is_signalled_and_the_report_still_written
    (w : World) (headCoverage baseCoverage : Coverage.t) (s : state)
    (hash : string) (file : CoverageFile.t) (d : number) :
  failOnNegativeDifference (getInputs w) = true ->
  wf_files (Coverage.files headCoverage) ->
  In (hash, file) (Coverage.files headCoverage) ->
  differencePercentage baseCoverage hash file = Some d ->
  d < 0 ->
  (forall path data, writeFile w path data = Return tt) ->
  let result := generateMarkdown w headCoverage (Some baseCoverage) s in
  In (SetFailed (CoverageFile.relative file ++ " coverage difference was "
                   ++ Number_toString d ++ "%"))
     (log (fst result))
  /\ (exists data,
        In (WriteFile (markdownFilename (getInputs w) ++ ".md") data)
           (log (fst result)))
  /\ In (SetOutput "file" (OString (markdownFilename (getInputs w) ++ ".md")))
        (log (fst result))
  /\ In (SetOutput "coverage" (ONumber (Coverage.coverage headCoverage)))
        (log (fst result))
  /\ ((forall data, summary_write w data = Return tt) ->
      snd result = Return tt).
Proof.
  intros Htoggle Hwf Hin Hdiff Hneg Hwrite result.
  assert (Hsig : In (SetFailed (CoverageFile.relative file
                                  ++ " coverage difference was "
                                  ++ Number_toString d ++ "%"))
                    (signals (getInputs w) headCoverage (Some baseCoverage))).
  { unfold signals. apply in_or_app. left.
    apply in_flat_map. exists (hash, file). split; [exact Hin|].
    unfold fileSignals. simpl fst. simpl snd.
    rewrite Htoggle, Hdiff. simpl.
    apply Qltb_lt in Hneg. rewrite Hneg.
    rewrite (lookup_wf hash file Hwf Hin). left. reflexivity. }
  subst result. rewrite generateMarkdown_log by apply Hwrite.
  fold (reportPath w).
  repeat split.
  - rewrite !in_app_iff. auto.
  - eexists. rewrite !in_app_iff. right. right. simpl. eauto.
  - rewrite !in_app_iff. right. right. simpl. auto.
  - rewrite !in_app_iff. right. right. simpl. auto.
  - intros Hsum. rewrite generateMarkdown_run, Hwrite, Hsum. reflexivity.
Qed.

(** C3.  Whatever the baseline, present or not: when the overall
    percentage of the head snapshot is below
    [overallCoverageFailThreshold], the failure is signalled. *)
Theorem overall_below_threshold_is_signalled
    (w : World) (headCoverage : Coverage.t) (baseCoverage : option Coverage.t)
    (s : state) :
  Coverage.coverage headCoverage < overallCoverageFailThreshold (getInputs w) ->
  In (SetFailed
        ("FAIL: Overall coverage of "
           ++ Number_toString (Coverage.coverage headCoverage)
           ++ "% below minimum threshold of "
           ++ Number_toString (overallCoverageFailThreshold (getInputs w)) ++ "%"))
     (log (fst (generateMarkdown w headCoverage baseCoverage s))).
Proof.
  intros Hlow. rewrite generateMarkdown_run.
  assert (Hsig : In (SetFailed
        ("FAIL: Overall coverage of "
           ++ Number_toString (Coverage.coverage headCoverage)
           ++ "% below minimum threshold of "
           ++ Number_toString (overallCoverageFailThreshold (getInputs w)) ++ "%"))
        (signals (getInputs w) headCoverage baseCoverage)).
  { unfold signals, thresholdSignal. apply Qltb_lt in Hlow. rewrite Hlow.
    rewrite !in_app_iff. right. left. left. reflexivity. }
  destruct (writeFile w _ _); [destruct (summary_write w _)|]; simpl;
    rewrite !in_app_iff; auto.
Qed.

(** C2.  With the overall-level toggle on and a baseline present, the
    overall regression is signalled, with its magnitude, exactly when the
    rounded difference [roundPercentage (head - base)] is negative: when
    it is, the signal is in the log and the run counts one failure more
    than the same run with the toggle off; when it is not, the run is the
    run with the toggle off. *)
Theorem overall_regression_is_signalled_iff_the_rounded_difference_is_negative
    (w : World) (headCoverage baseCoverage : Coverage.t) (s : state) :
  failOnNegativeOverallDifference (getInputs w) = true ->
  let d := roundPercentage
             (Coverage.coverage headCoverage - Coverage.coverage baseCoverage) in
  let off := withInputs w (setFailOnNegativeOverallDifference (getInputs w) false) in
  let result := generateMarkdown w headCoverage (Some baseCoverage) s in
  let result_off := generateMarkdown off headCoverage (Some baseCoverage) s in
  (d < 0 ->
     In (SetFailed ("Coverage dropped by " ++ Number_toString d ++ "%"))
        (log (fst result))
     /\ length (failures (log (fst result)))
        = S (length (failures (log (fst result_off)))))
  /\ (~ d < 0 -> result = result_off).
Proof.
  intros Htoggle d off result result_off.
  assert (Hblocks : reportBlocks (getInputs off) headCoverage (Some baseCoverage)
                    = reportBlocks (getInputs w) headCoverage (Some baseCoverage))
    by reflexivity.
  assert (Htext : reportText off headCoverage (Some baseCoverage) s
                  = reportText w headCoverage (Some baseCoverage) s)
    by reflexivity.
  assert (Hpath : reportPath off = reportPath w) by reflexivity.
  assert (Hfiles : flat_map (fileSignals (getInputs off) headCoverage (Some baseCoverage))
                     (Coverage.files headCoverage)
                   = flat_map (fileSignals (getInputs w) headCoverage (Some baseCoverage))
                       (Coverage.files headCoverage))
    by reflexivity.
  assert (Hthr : thresholdSignal (getInputs off) headCoverage
                 = thresholdSignal (getInputs w) headCoverage)
    by reflexivity.
  assert (Hoff : overallSignal (getInputs off) headCoverage (Some baseCoverage) = [])
    by reflexivity.
  subst result result_off. rewrite !generateMarkdown_run.
  rewrite Hblocks, Htext, Hpath.
  unfold signals. rewrite Hfiles, Hthr, Hoff.
  change (writeFile off) with (writeFile w).
  change (summary_write off) with (summary_write w).
  unfold overallSignal. rewrite Htoggle. simpl andb. simpl template.
  fold d. split.
  - intros Hneg. apply Qltb_lt in Hneg. unfold isNegative. rewrite Hneg.
    destruct (writeFile w _ _); [destruct (summary_write w _)|]; simpl fst;
      simpl log; (split;
        [ rewrite !in_app_iff; simpl; auto 10
        | rewrite !failures_app, !length_app; simpl; lia ]).
  - intros Hnot. unfold isNegative.
    destruct (Qltb d 0) eqn:E; [apply Qltb_lt in E; contradiction|].
    reflexivity.
Qed.

(** ** The threshold classifier *)

(** C4.  Whatever the ceilings, the classifier answers Error exactly
    below the error ceiling and Warning exactly from the error ceiling up
    to (not including) the warning ceiling, so the value [E] is never
    Error, and is Warning when [E < W]; a null value is Neutral, whatever
    the ceilings.  When the error ceiling is at most the warning ceiling,
    the classifier answers Ok exactly from the warning ceiling on, so the
    value [W] is Ok. *)
Theorem classify_tiers (p W E : number) :
  (classify (Some p) W E = Error <-> p < E)
  /\ (classify (Some p) W E = Warn <-> E <= p /\ p < W)
  /\ classify (Some E) W E <> Error
  /\ (E < W -> classify (Some E) W E = Warn)
  /\ classify None W E = Neutral
  /\ (E <= W ->
      (classify (Some p) W E = Ok <-> W <= p)
      /\ classify (Some W) W E = Ok).
Proof.
  unfold classify.
  assert (HE : Qltb E E = false) by (apply Qltb_ge; apply Qle_refl).
  assert (HW : Qltb W W = false) by (apply Qltb_ge; apply Qle_refl).
  rewrite HE, HW.
  split; [|split; [|split; [|split; [|split]]]].
  - destruct (Qltb p E) eqn:H1.
    + split; [intros _; apply Qltb_lt; exact H1|reflexivity].
    + split; [destruct (Qltb p W); discriminate|].
      intros L. apply Qltb_lt in L. congruence.
  - destruct (Qltb p E) eqn:H1.
    + split; [discriminate|].
      intros [L _]. apply Qltb_ge in L. congruence.
    + destruct (Qltb p W) eqn:H2.
      * split; [|reflexivity].
        intros _. split; [apply Qltb_ge; exact H1|apply Qltb_lt; exact H2].
      * split; [discriminate|].
        intros [_ L]. apply Qltb_lt in L. congruence.
  - destruct (Qltb E W); discriminate.
  - intros L. apply Qltb_lt in L. rewrite L. reflexivity.
  - reflexivity.
  - intros HEW.
    assert (HWE : Qltb W E = false) by (apply Qltb_ge; exact HEW).
    rewrite HWE. split; [|reflexivity].
    destruct (Qltb p E) eqn:H1; [|destruct (Qltb p W) eqn:H2].
    + apply Qltb_lt in H1. split; [discriminate|].
      intros L. exfalso.
      exact (Qlt_not_le _ _ H1 (Qle_trans _ _ _ HEW L)).
    + split; [discriminate|].
      intros L. apply Qltb_ge in L. congruence.
    + split; [|reflexivity].
      intros _. apply Qltb_ge. exact H2.
Qed.

(** ** Files without a usable baseline *)

(** X13.  A file of the head snapshot whose key the base snapshot does
    not have: no baseline, no difference, no signal whatever the toggles,
    and the call goes through; the row shows a null baseline and a null
    difference. *)
Lemma fileRow_absent_in_base (i : Inputs) (headCoverage baseCoverage : Coverage.t)
    (hash : string) (file : CoverageFile.t) (s : state) :
  ~ In hash (map fst (Coverage.files baseCoverage)) ->
  baseCoveragePercentage baseCoverage hash = None
  /\ differencePercentage baseCoverage hash file = None
  /\ fileRow i headCoverage (Some baseCoverage) (hash, file) s
     = (s, Return [ CoverageFile.relative file;
                    colorizePercentageByThreshold None
                      (Some (fileCoverageWarningMax i))
                      (Some (fileCoverageErrorMin i));
                    colorizePercentageByThreshold
                      (Some (CoverageFile.coverage file))
                      (Some (fileCoverageWarningMax i))
                      (Some (fileCoverageErrorMin i));
                    colorizePercentageByThreshold None None None ]).
Proof.
  intros Habs. apply lookup_None in Habs.
  assert (Hb : baseCoveragePercentage baseCoverage hash = None)
    by (unfold baseCoveragePercentage; rewrite Habs; reflexivity).
  assert (Hd : differencePercentage baseCoverage hash file = None)
    by (unfold differencePercentage; rewrite Hb; reflexivity).
  repeat split; try assumption.
  unfold fileRow. rewrite Hb, Hd. simpl. rewrite andb_false_r. reflexivity.
Qed.

(** A file whose key the base snapshot has, with a baseline other than
    zero: the difference is the rounded difference of the percentages. *)
Lemma differencePercentage_present (baseCoverage : Coverage.t) (hash : string)
    (file baseFile : CoverageFile.t) :
  lookup hash (Coverage.files baseCoverage) = Some baseFile ->
  ~ CoverageFile.coverage baseFile == 0 ->
  differencePercentage baseCoverage hash file
  = Some (roundPercentage
            (CoverageFile.coverage file - CoverageFile.coverage baseFile)).
Proof.
  intros Hl Hnz. unfold differencePercentage, baseCoveragePercentage.
  rewrite Hl. apply truthy_nonzero in Hnz. rewrite Hnz. reflexivity.
Qed.

(** C9.  A file whose baseline percentage is exactly zero: the difference
    is null, not the rounded head percentage; [fileRow] leaves the state
    as it found it, so the regression check does not fire for the file;
    the Difference cell is the cell of a null value, whose tier is
    Neutral; and that row is in the table of the written report. *)
Theorem zero_baseline_file_has_null_difference
    (w : World) (headCoverage baseCoverage : Coverage.t)
    (hash : string) (file baseFile : CoverageFile.t) (s : state) :
  lookup hash (Coverage.files baseCoverage) = Some baseFile ->
  CoverageFile.coverage baseFile == 0 ->
  let i := getInputs w in
  let cells :=
    [ CoverageFile.relative file;
      colorizePercentageByThreshold (Some (CoverageFile.coverage baseFile))
        (Some (fileCoverageWarningMax i)) (Some (fileCoverageErrorMin i));
      colorizePercentageByThreshold (Some (CoverageFile.coverage file))
        (Some (fileCoverageWarningMax i)) (Some (fileCoverageErrorMin i));
      colorizePercentageByThreshold None None None ] in
  differencePercentage baseCoverage hash file = None
  /\ fileRow i headCoverage (Some baseCoverage) (hash, file) s = (s, Return cells)
  /\ classify None defaultWarningCeiling defaultErrorCeiling = Neutral
  /\ (In (hash, file) (Coverage.files headCoverage) ->
      reportPackageCoverage i = true ->
      exists before rows after,
        In (WriteFile (markdownFilename i ++ ".md")
              (Summary_stringify (before ++ Table rows :: after)))
           (log (fst (generateMarkdown w headCoverage (Some baseCoverage) s)))
        /\ In (Cells cells) rows).
Proof.
  intros Hl Hz i cells.
  assert (Hb : baseCoveragePercentage baseCoverage hash
               = Some (CoverageFile.coverage baseFile))
    by (unfold baseCoveragePercentage; rewrite Hl; reflexivity).
  assert (Hd : differencePercentage baseCoverage hash file = None).
  { unfold differencePercentage. rewrite Hb.
    apply truthy_zero in Hz. rewrite Hz. reflexivity. }
  repeat split.
  - exact Hd.
  - unfold fileRow. fold i. rewrite Hb, Hd. simpl. rewrite andb_false_r.
    reflexivity.
  - intros Hin Hpkg.
    destruct (generateMarkdown_log_prefix w headCoverage (Some baseCoverage) s)
      as [rest Hlog].
    exists (buffer s ++ Heading "Code Coverage Report"
              :: badgeBlocks i headCoverage
              ++ overallBlocks i headCoverage (Some baseCoverage))%list.
    exists (generatePackageCoverageReport (Some baseCoverage)
              (List.map (fileCells i (Some baseCoverage))
                 (Coverage.files headCoverage))).
    eexists. split.
    + rewrite Hlog. rewrite !in_app_iff. right. right. left. right. left.
      unfold reportPath, reportText, reportBlocks, packageBlocks. fold i.
      rewrite Hpkg. f_equal. f_equal.
      rewrite <- !app_assoc. simpl. rewrite <- !app_assoc. reflexivity.
    + unfold generatePackageCoverageReport. right.
      apply in_map.
      replace cells with (fileCells i (Some baseCoverage) (hash, file)).
      * apply in_map. exact Hin.
      * unfold fileCells. simpl fst. simpl snd. rewrite Hb, Hd. reflexivity.
Qed.

(** C5.  The base snapshot has the file, with 0 percent; the head has it
    with 50 percent.  The difference is null, although the rounded
    difference of the percentages is 50. *)
Example zero_baseline_difference_is_lost :
  let base := Sample.snapshot [("h2", Sample.file "b.ts" 0)] 0 in
  let file := Sample.file "b.ts" 50 in
  baseCoveragePercentage base "h2" = Some 0
  /\ differencePercentage base "h2" file = None
  /\ roundPercentage (CoverageFile.coverage file - 0) == 50.
Proof.
  repeat split.
Qed.

(** ** The overall block *)

(** Where the overall block sits in the written report. *)
Lemma overall_block_is_written (w : World) (headCoverage : Coverage.t)
    (baseCoverage : option Coverage.t) (s : state) :
  reportOverallCoverage (getInputs w) = true ->
  exists before after,
    In (WriteFile (markdownFilename (getInputs w) ++ ".md")
          (Summary_stringify
             (before
                ++ Raw (generateOverallCoverageReport
                          (Coverage.coverage headCoverage)
                          (option_map Coverage.coverage baseCoverage)
                          (overallDifferencePercentage headCoverage baseCoverage)
                          (fileCoverageErrorMin (getInputs w))
                          (fileCoverageWarningMax (getInputs w)))
                :: after)))
       (log (fst (generateMarkdown w headCoverage baseCoverage s))).
Proof.
  intros Hovl.
  destruct (generateMarkdown_log_prefix w headCoverage baseCoverage s)
    as [rest Hlog].
  exists (buffer s ++ Heading "Code Coverage Report"
            :: badgeBlocks (getInputs w) headCoverage ++ [Break])%list.
  exists (Break :: packageBlocks (getInputs w) headCoverage baseCoverage).
  rewrite Hlog. rewrite !in_app_iff. right. right. left. right. left.
  unfold reportPath, reportText, reportBlocks, overallBlocks.
  rewrite Hovl. f_equal. f_equal.
  rewrite <- !app_assoc. simpl. rewrite <- !app_assoc. reflexivity.
Qed.

(** C8.  In the overall block of a run with a baseline other than zero,
    the badges of Current and Baseline get their colour from the
    configured per-file thresholds, the badge of Difference from a call
    without thresholds; so the Difference row does not depend on the
    thresholds. *)
Theorem difference_badge_is_coloured_without_thresholds
    (w : World) (headCoverage baseCoverage : Coverage.t) (s : state) :
  reportOverallCoverage (getInputs w) = true ->
  ~ Coverage.coverage baseCoverage == 0 ->
  let i := getInputs w in
  let current := Coverage.coverage headCoverage in
  let baseline := Coverage.coverage baseCoverage in
  let difference := roundPercentage (current - baseline) in
  let differenceRow :=
    [ "Difference";
      overallBadge "Difference" (Number_toString difference)
        (colorizeBadgeByThreshold (Some difference) None None) ] in
  let rows :=
    [ [""; ""];
      [ "Current";
        overallBadge "Current" (Number_toString current)
          (colorizeBadgeByThreshold (Some current)
             (Some (fileCoverageErrorMin i)) (Some (fileCoverageWarningMax i))) ];
      [ "Baseline";
        overallBadge "Baseline" (Number_toString baseline)
          (colorizeBadgeByThreshold (Some baseline)
             (Some (fileCoverageErrorMin i)) (Some (fileCoverageWarningMax i))) ];
      differenceRow ] in
  (exists before after,
     In (WriteFile (markdownFilename i ++ ".md")
           (Summary_stringify (before ++ Raw (markdownTable rows) :: after)))
        (log (fst (generateMarkdown w headCoverage (Some baseCoverage) s))))
  /\ (forall thresholdMin thresholdMax,
        nth_error (overallRows current (Some baseline) (Some difference)
                     thresholdMin thresholdMax) 3
        = Some differenceRow).
Proof.
  intros Hovl Hnz i current baseline difference differenceRow rows.
  apply truthy_nonzero in Hnz.
  split.
  - destruct (overall_block_is_written w headCoverage (Some baseCoverage) s Hovl)
      as [before [after Hin]].
    exists before, after.
    unfold generateOverallCoverageReport, overallRows in Hin.
    cbn [option_map] in Hin. rewrite Hnz in Hin. exact Hin.
  - intros thresholdMin thresholdMax. unfold overallRows.
    fold baseline in Hnz. rewrite Hnz. reflexivity.
Qed.

(** C10.  With a baseline whose overall percentage is exactly zero, the
    overall difference is computed all the same, and yet the overall
    block of the written report is the one-row table of a run without
    baseline: Current alone, no Baseline and no Difference row. *)
Theorem zero_overall_baseline_is_rendered_as_no_baseline
    (w : World) (headCoverage baseCoverage : Coverage.t) (s : state) :
  reportOverallCoverage (getInputs w) = true ->
  Coverage.coverage baseCoverage == 0 ->
  let i := getInputs w in
  let current := Coverage.coverage headCoverage in
  let rows :=
    [ [""; ""];
      [ "Current";
        overallBadge "Current" (Number_toString current)
          (colorizeBadgeByThreshold (Some current)
             (Some (fileCoverageErrorMin i)) (Some (fileCoverageWarningMax i))) ] ] in
  overallDifferencePercentage headCoverage (Some baseCoverage)
  = Some (roundPercentage (current - Coverage.coverage baseCoverage))
  /\ (exists before after,
        In (WriteFile (markdownFilename i ++ ".md")
              (Summary_stringify (before ++ Raw (markdownTable rows) :: after)))
           (log (fst (generateMarkdown w headCoverage (Some baseCoverage) s))))
  /\ markdownTable rows
     = generateOverallCoverageReport current None None
         (fileCoverageErrorMin i) (fileCoverageWarningMax i).
Proof.
  intros Hovl Hz i current rows.
  apply truthy_zero in Hz.
  repeat split.
  destruct (overall_block_is_written w headCoverage (Some baseCoverage) s Hovl)
    as [before [after Hin]].
  exists before, after.
  unfold generateOverallCoverageReport, overallRows in Hin.
  cbn [option_map] in Hin. rewrite Hz in Hin. exact Hin.
Qed.

(** ** The orchestrator *)

(** C7.  When the report file cannot be reached, whatever the trigger
    kind, the run does one thing: it signals the failure, naming the
    file.  Nothing is uploaded, written or set. *)
Theorem missing_report_file_fails_at_once (w : World) (s : state) :
  checkFileExists w (getInput w "filename") = false ->
  run w s
  = (mkState (log s ++ [SetFailed ("Unable to access " ++ getInput w "filename")])
             (buffer s),
     Return tt).
Proof.
  intros Hmiss. unfold run, try_catch. rewrite Hmiss. reflexivity.
Qed.

(** C6.  The report file being there: on push, schedule and
    workflow_dispatch the run uploads the file under the name of the
    current ref and, the upload done, ends without a failure, a report
    or an output (an upload that throws is the one failure signalled, and
    still there is no report and no output); on a kind that is none of
    pull_request, push, schedule, workflow_dispatch the run does nothing
    at all. *)
Theorem push_like_runs_upload_and_other_kinds_do_nothing
    (w : World) (s : state) :
  checkFileExists w (getInput w "filename") = true ->
  let filename := getInput w "filename" in
  let kind := env w "GITHUB_EVENT_NAME" in
  ((kind = Some "push" \/ kind = Some "schedule"
    \/ kind = Some "workflow_dispatch") ->
   uploadArtifacts w [filename] (envOr w "GITHUB_REF_NAME") = Return tt ->
   run w s
   = (mkState (log s ++ [Info ("Uploading " ++ filename);
                         UploadArtifacts [filename] (envOr w "GITHUB_REF_NAME");
                         Info "Complete"])
              (buffer s),
      Return tt))
  /\ ((kind = Some "push" \/ kind = Some "schedule"
       \/ kind = Some "workflow_dispatch") ->
      forall message,
        uploadArtifacts w [filename] (envOr w "GITHUB_REF_NAME") = Throw message ->
        run w s
        = (mkState (log s ++ [Info ("Uploading " ++ filename);
                              UploadArtifacts [filename] (envOr w "GITHUB_REF_NAME");
                              SetFailed message])
                   (buffer s),
           Return tt))
  /\ (kind <> Some "pull_request" -> kind <> Some "push" ->
      kind <> Some "schedule" -> kind <> Some "workflow_dispatch" ->
      run w s = (s, Return tt)).
Proof.
  intros Hthere filename kind.
  assert (Hrun : forall k,
             Some k = Some "push" \/ Some k = Some "schedule"
             \/ Some k = Some "workflow_dispatch" ->
             String.eqb k "pull_request" = false
             /\ (String.eqb k "push" || String.eqb k "schedule"
                 || String.eqb k "workflow_dispatch") = true)
    by (intros k [E|[E|E]]; injection E as ->; split; reflexivity).
  split; [|split].
  - intros Hkind Hup. unfold run, try_catch. rewrite Hthere. simpl negb.
    fold kind. fold filename.
    destruct kind as [k|].
    + destruct (Hrun k Hkind) as [E1 E2]. rewrite E1, E2.
      unfold bind, core_info, emit, call. simpl. rewrite Hup.
      rewrite <- !app_assoc. reflexivity.
    + destruct Hkind as [E|[E|E]]; discriminate.
  - intros Hkind message Hup. unfold run, try_catch. rewrite Hthere. simpl negb.
    fold kind. fold filename.
    destruct kind as [k|].
    + destruct (Hrun k Hkind) as [E1 E2]. rewrite E1, E2.
      unfold bind, core_info, core_setFailed, emit, call. simpl. rewrite Hup.
      simpl. rewrite <- !app_assoc. reflexivity.
    + destruct Hkind as [E|[E|E]]; discriminate.
  - intros N1 N2 N3 N4. unfold run, try_catch. rewrite Hthere. simpl negb.
    fold kind.
    destruct kind as [k|]; [|reflexivity].
    destruct (String.eqb_spec k "pull_request") as [->|_]; [congruence|].
    destruct (String.eqb_spec k "push") as [->|_]; [congruence|].
    destruct (String.eqb_spec k "schedule") as [->|_]; [congruence|].
    destruct (String.eqb_spec k "workflow_dispatch") as [->|_]; [congruence|].
    reflexivity.
Qed.

End Properties.

(** * The model at work *)

(** Two files regress: two signals, and the report is written. *)
Example two_regressions_two_signals :
  let w := Sample.world (Some "pull_request") true (Sample.inputs true false 0)
             (Some Sample.head) (Some Sample.base) in
  failures (log (fst (run w Sample.start)))
  = ["a.ts coverage difference was -5%"; "b.ts coverage difference was -5%"]
  /\ In (SetOutput "coverage" (ONumber 70)) (log (fst (run w Sample.start)))
  /\ snd (run w Sample.start) = Return tt.
Proof.
  vm_compute. repeat split. auto 10.
Qed.

(** A head at 40 percent against a threshold of 50, on a branch without
    baseline: the run warns, fails, and writes the report. *)
Example low_coverage_without_baseline_fails_the_run :
  let w := Sample.world (Some "pull_request") true (Sample.inputs true true 50)
             (Some Sample.head_low) None in
  failures (log (fst (run w Sample.start)))
  = ["FAIL: Overall coverage of 40% below minimum threshold of 50%"]
  /\ In (Warning "main is missing cov.xml. See documentation on how to add this")
        (log (fst (run w Sample.start)))
  /\ In (SetOutput "file" (OString "code-coverage-results.md"))
        (log (fst (run w Sample.start))).
Proof.
  vm_compute. repeat split; auto 10.
Qed.

(** C1, at a.ts of the sample snapshots. *)
Lemma file_regression_is_signalled_witness :
  let w := Sample.world (Some "pull_request") true (Sample.inputs true false 0)
             (Some Sample.head) (Some Sample.base) in
  let result := generateMarkdown w Sample.head (Some Sample.base) Sample.start in
  In (SetFailed "a.ts coverage difference was -5%") (log (fst result))
  /\ (exists data, In (WriteFile "code-coverage-results.md" data) (log (fst result)))
  /\ In (SetOutput "file" (OString "code-coverage-results.md")) (log (fst result))
  /\ In (SetOutput "coverage" (ONumber 70)) (log (fst result))
  /\ ((forall data, summary_write w data = Return tt) -> snd result = Return tt).
Proof.
  refine (file_regression_is_signalled_and_the_report_still_written
            (Sample.world (Some "pull_request") true (Sample.inputs true false 0)
               (Some Sample.head) (Some Sample.base))
            Sample.head Sample.base Sample.start "h1" (Sample.file "a.ts" 90)
            (d := roundPercentage (90 - 95)) _ _ _ _ _ _).
  - reflexivity.
  - unfold wf_files. simpl.
    repeat constructor; simpl; intuition discriminate.
  - simpl. auto.
  - reflexivity.
  - reflexivity.
  - intros path data. reflexivity.
Defined.

(** C2 as stated fails: the head is a thousandth of a point below the
    baseline, the toggle is on, and no failure is signalled. *)
Lemma overall_regression_below_rounding_is_not_signalled :
  let w := Sample.world (Some "pull_request") true (Sample.inputs false true 0)
             (Some Sample.head_plain) (Some Sample.base_close) in
  failOnNegativeOverallDifference (getInputs w) = true
  /\ Coverage.coverage Sample.head_plain - Coverage.coverage Sample.base_close < 0
  /\ failures (log (fst (generateMarkdown w Sample.head_plain
                           (Some Sample.base_close) Sample.start))) = [].
Proof.
  repeat split.
Qed.

(** C2 as amended, at a baseline of 75 percent and a head of 70. *)
Lemma overall_regression_is_signalled_witness :
  let w := Sample.world (Some "pull_request") true (Sample.inputs false true 0)
             (Some Sample.head) (Some Sample.base) in
  let off := withInputs w (setFailOnNegativeOverallDifference (getInputs w) false) in
  let result := generateMarkdown w Sample.head (Some Sample.base) Sample.start in
  let result_off := generateMarkdown off Sample.head (Some Sample.base) Sample.start in
  In (SetFailed "Coverage dropped by -5%") (log (fst result))
  /\ length (failures (log (fst result)))
     = S (length (failures (log (fst result_off)))).
Proof.
  refine (proj1 (overall_regression_is_signalled_iff_the_rounded_difference_is_negative
                   (Sample.world (Some "pull_request") true
                      (Sample.inputs false true 0)
                      (Some Sample.head) (Some Sample.base))
                   Sample.head Sample.base Sample.start _) _).
  - reflexivity.
  - reflexivity.
Defined.

(** C3, at the example of the claim: 40 percent against a threshold of
    50, without baseline. *)
Lemma overall_below_threshold_is_signalled_witness :
  let w := Sample.world (Some "pull_request") true (Sample.inputs false false 50)
             (Some Sample.head_low) None in
  In (SetFailed "FAIL: Overall coverage of 40% below minimum threshold of 50%")
     (log (fst (generateMarkdown w Sample.head_low None Sample.start))).
Proof.
  refine (overall_below_threshold_is_signalled
            (Sample.world (Some "pull_request") true (Sample.inputs false false 50)
               (Some Sample.head_low) None)
            Sample.head_low None Sample.start _).
  reflexivity.
Defined.

(** C4 as stated fails when the error ceiling is above the warning
    ceiling: with W = 50 and E = 80 the value 60 is at least W, and it is
    Error, not Ok. *)
Lemma classify_misconfigured_is_not_ok :
  0 <= 60 /\ 60 < 100 /\ 50 <= 60 /\ classify (Some 60) 50 80 = Error
  /\ classify (Some 60) 50 80 <> Ok.
Proof.
  repeat split; discriminate.
Qed.

(** C4 as amended, at the default ceilings, 50 at most 80. *)
Lemma classify_tiers_witness :
  50 <= 80
  /\ (classify (Some 50) 80 50 = Ok <-> 80 <= 50)
  /\ classify (Some 80) 80 50 = Ok
  /\ classify None 80 50 = Neutral.
Proof.
  assert (Hle : 50 <= 80) by discriminate.
  pose proof (classify_tiers 50 80 50) as P.
  destruct P as [_ [_ [_ [_ [Hnull Hok]]]]].
  destruct (Hok Hle) as [Hiff Hw].
  exact (conj Hle (conj Hiff (conj Hw Hnull))).
Defined.

(** C9, at b.ts of the sample snapshots, whose baseline is zero. *)
Lemma zero_baseline_file_has_null_difference_witness :
  differencePercentage Sample.base_zero "h2" (Sample.file "b.ts" 40) = None
  /\ fileRow (Sample.inputs true true 0) Sample.head (Some Sample.base_zero)
       ("h2", Sample.file "b.ts" 40) Sample.start
     = (Sample.start, Return ["b.ts"; "red 0%"; "red 40%"; "gray 0%"]).
Proof.
  pose proof (zero_baseline_file_has_null_difference
                (Sample.world (Some "pull_request") true (Sample.inputs true true 0)
                   (Some Sample.head) (Some Sample.base_zero))
                Sample.head Sample.base_zero "h2" (Sample.file "b.ts" 40)
                (baseFile := Sample.file "b.ts" 0) Sample.start
                eq_refl eq_refl) as P.
  exact (conj (proj1 P) (proj1 (proj2 P))).
Defined.

(** C8, with per-file thresholds of 30 and 60: 70 and 75 percent are
    green, the difference of -5 is red. *)
Lemma difference_badge_is_coloured_without_thresholds_witness :
  let w := Sample.world (Some "pull_request") true
             (setFileThresholds (Sample.inputs false false 0) 30 60)
             (Some Sample.head) (Some Sample.base) in
  exists before after,
    In (WriteFile "code-coverage-results.md"
          (Summary_stringify
             (before
                ++ Raw (markdownTable
                          [ [""; ""];
                            ["Current";
                             "![Current](https://img.shields.io/badge/Current-70%-green?style=for-the-badge)"];
                            ["Baseline";
                             "![Baseline](https://img.shields.io/badge/Baseline-75%-green?style=for-the-badge)"];
                            ["Difference";
                             "![Difference](https://img.shields.io/badge/Difference--5%-red?style=for-the-badge)"] ])
                :: after)))
       (log (fst (generateMarkdown w Sample.head (Some Sample.base) Sample.start))).
Proof.
  refine (proj1 (difference_badge_is_coloured_without_thresholds
                   (Sample.world (Some "pull_request") true
                      (setFileThresholds (Sample.inputs false false 0) 30 60)
                      (Some Sample.head) (Some Sample.base))
                   Sample.head Sample.base Sample.start _ _)).
  - reflexivity.
  - discriminate.
Defined.

(** C10, at the sample baseline whose overall percentage is zero. *)
Lemma zero_overall_baseline_is_rendered_as_no_baseline_witness :
  let w := Sample.world (Some "pull_request") true (Sample.inputs false false 0)
             (Some Sample.head) (Some Sample.base_zero) in
  exists before after,
    In (WriteFile "code-coverage-results.md"
          (Summary_stringify
             (before
                ++ Raw (markdownTable
                          [ [""; ""];
                            ["Current";
                             "![Current](https://img.shields.io/badge/Current-70%-yellow?style=for-the-badge)"] ])
                :: after)))
       (log (fst (generateMarkdown w Sample.head (Some Sample.base_zero) Sample.start))).
Proof.
  refine (proj1 (proj2 (zero_overall_baseline_is_rendered_as_no_baseline
                          (Sample.world (Some "pull_request") true
                             (Sample.inputs false false 0)
                             (Some Sample.head) (Some Sample.base_zero))
                          Sample.head Sample.base_zero Sample.start _ _))).
  - reflexivity.
  - reflexivity.
Defined.

(** C7, on a push and on a pull request. *)
Lemma missing_report_file_fails_at_once_witness :
  run (Sample.world (Some "push") false (Sample.inputs true true 50) None None)
      Sample.start
  = (mkState [SetFailed "Unable to access cov.xml"] [], Return tt)
  /\ run (Sample.world (Some "pull_request") false (Sample.inputs true true 50)
            (Some Sample.head) (Some Sample.base))
         Sample.start
     = (mkState [SetFailed "Unable to access cov.xml"] [], Return tt).
Proof.
  split.
  - refine (missing_report_file_fails_at_once
              (Sample.world (Some "push") false (Sample.inputs true true 50)
                 None None) Sample.start _).
    reflexivity.
  - refine (missing_report_file_fails_at_once
              (Sample.world (Some "pull_request") false (Sample.inputs true true 50)
                 (Some Sample.head) (Some Sample.base)) Sample.start _).
    reflexivity.
Defined.

(** C6, on a push and on a release. *)
Lemma push_like_runs_upload_witness :
  run (Sample.world (Some "push") true (Sample.inputs true true 50) None None)
      Sample.start
  = (mkState [Info "Uploading cov.xml";
              UploadArtifacts ["cov.xml"] "feature";
              Info "Complete"] [],
     Return tt)
  /\ run (Sample.world (Some "release") true (Sample.inputs true true 50) None None)
         Sample.start
     = (Sample.start, Return tt).
Proof.
  split.
  - refine (proj1 (push_like_runs_upload_and_other_kinds_do_nothing
                     (Sample.world (Some "push") true (Sample.inputs true true 50)
                        None None) Sample.start _) _ _).
    + reflexivity.
    + left. reflexivity.
    + reflexivity.
  - refine (proj2 (proj2 (push_like_runs_upload_and_other_kinds_do_nothing
                            (Sample.world (Some "release") true
                               (Sample.inputs true true 50) None None)
                            Sample.start _)) _ _ _ _).
    + reflexivity.
    + discriminate.
    + discriminate.
    + discriminate.
    + discriminate.
Defined.

(** * Further properties of main.ts *)

Section Further.

Context `{Host}.

(** ** Shared facts *)

Lemma try_catch_bind {A B} (m : M A) (k : A -> M B) (handler : string -> M B)
    (s : state) :
  try_catch (bind m k) handler s
  = match m s with
    | (s', Return a) => try_catch (k a) handler s'
    | (s', Throw e) => handler e s'
    end.
Proof.
  unfold try_catch, bind. destruct (m s) as [s' [a|e]]; reflexivity.
Qed.

Lemma fileSignals_are_failures (i : Inputs) (headCoverage : Coverage.t)
    (baseCoverage : option Coverage.t) (entry : string * CoverageFile.t) (e : event) :
  In e (fileSignals i headCoverage baseCoverage entry) -> exists m, e = SetFailed m.
Proof.
  unfold fileSignals. destruct baseCoverage as [b|]; [|intros []].
  destruct (failOnNegativeDifference i && isNegative _); [|intros []].
  destruct (lookup _ _); [|intros []].
  intros [E|[]]. eexists. symmetry. exact E.
Qed.

Lemma signals_are_failures (i : Inputs) (headCoverage : Coverage.t)
    (baseCoverage : option Coverage.t) (e : event) :
  In e (signals i headCoverage baseCoverage) -> exists m, e = SetFailed m.
Proof.
  unfold signals. rewrite !in_app_iff, in_flat_map.
  intros [[entry [_ I]]|[I|I]].
  - exact (fileSignals_are_failures _ _ _ _ _ I).
  - unfold thresholdSignal in I. destruct (Qltb _ _); [|destruct I].
    destruct I as [E|[]]. eexists. symmetry. exact E.
  - unfold overallSignal in I. destruct (_ && _); [|destruct I].
    destruct I as [E|[]]. eexists. symmetry. exact E.
Qed.

Lemma signals_reportEvent (i : Inputs) (headCoverage : Coverage.t)
    (baseCoverage : option Coverage.t) :
  Forall (fun e => reportEvent e = true) (signals i headCoverage baseCoverage).
Proof.
  apply Forall_forall. intros e I.
  destruct (signals_are_failures _ _ _ _ I) as [m ->]. reflexivity.
Qed.

(** A report, with the catch of [run] around it: only report events are
    logged, and nothing is thrown. *)
Lemma generateMarkdown_caught (w : World) (headCoverage : Coverage.t)
    (baseCoverage : option Coverage.t) (s : state) :
  exists l,
    log (fst (try_catch (generateMarkdown w headCoverage baseCoverage)
                core_setFailed s))
    = (log s ++ l)%list
    /\ Forall (fun e => reportEvent e = true) l
    /\ snd (try_catch (generateMarkdown w headCoverage baseCoverage)
              core_setFailed s) = Return tt.
Proof.
  unfold try_catch. rewrite generateMarkdown_run.
  pose proof (signals_reportEvent (getInputs w) headCoverage baseCoverage) as Hs.
  destruct (writeFile w _ _) as [[]|e]; [destruct (summary_write w _) as [[]|e]|];
    cbn [core_setFailed emit fst snd log buffer];
    eexists; (split; [rewrite <- ?app_assoc; reflexivity|]);
    (split; [|reflexivity]);
    rewrite ?Forall_app; repeat split; try exact Hs;
    repeat constructor.
Qed.

(** The pull-request branch of [run], answer by answer. *)
Lemma run_pull_request (w : World) (s : state) :
  checkFileExists w (getInput w "filename") = true ->
  env w "GITHUB_EVENT_NAME" = Some "pull_request" ->
  let filename := getInput w "filename" in
  let ref := envOr w "GITHUB_BASE_REF" in
  let s1 := mkState (log s ++ [DownloadArtifacts ref]) (buffer s) in
  run w s
  = match downloadArtifacts w ref with
    | Throw e => core_setFailed e s1
    | Return artifactPath =>
        match
          match artifactPath with
          | Some dir => parseCoverage w (path_join dir filename)
          | None => Return None
          end
        with
        | Throw e => core_setFailed e s1
        | Return baseCoverage =>
            match parseCoverage w filename with
            | Throw e => core_setFailed e s1
            | Return None => core_setFailed ("Unable to process " ++ filename) s1
            | Return (Some headCoverage) =>
                match baseCoverage with
                | None =>
                    try_catch (generateMarkdown w headCoverage None) core_setFailed
                      (mkState
                         (log s
                            ++ [DownloadArtifacts ref;
                                Warning (ref ++ " is missing " ++ filename
                                           ++ ". See documentation on how to add this")])
                         (buffer s))
                | Some b =>
                    try_catch (generateMarkdown w headCoverage (Some b))
                      core_setFailed s1
                end
            end
        end
    end.
Proof.
  intros Hthere Hkind filename ref s1.
  unfold run. rewrite Hthere, Hkind. cbn [negb].
  rewrite String.eqb_refl. fold filename. fold ref.
  rewrite try_catch_bind. unfold call at 1. fold s1.
  destruct (downloadArtifacts w ref) as [artifactPath|e]; [|reflexivity].
  rewrite try_catch_bind.
  destruct artifactPath as [dir|].
  - destruct (parseCoverage w (path_join dir filename)) as [baseCoverage|e];
      [|reflexivity].
    rewrite try_catch_bind.
    destruct (parseCoverage w filename) as [[headCoverage|]|e]; try reflexivity.
    destruct baseCoverage as [b|]; [reflexivity|].
    rewrite try_catch_bind. unfold core_warning, emit. subst s1. cbn [log buffer].
    rewrite <- app_assoc. reflexivity.
  - unfold ret at 1.
    rewrite try_catch_bind.
    destruct (parseCoverage w filename) as [[headCoverage|]|e]; try reflexivity.
    rewrite try_catch_bind. unfold core_warning, emit. subst s1. cbn [log buffer].
    rewrite <- app_assoc. reflexivity.
Qed.

Lemma failures_flat_map {A} (f : A -> list event) (l : list A) :
  failures (flat_map f l) = flat_map (fun a => failures (f a)) l.
Proof.
  induction l as [|a l IH]; simpl; [reflexivity|].
  rewrite failures_app, IH. reflexivity.
Qed.

Lemma flat_map_ext_in {A B} (f g : A -> list B) (l : list A) :
  (forall a, In a l -> f a = g a) -> flat_map f l = flat_map g l.
Proof.
  induction l as [|a l IH]; simpl; intros E; [reflexivity|].
  rewrite (E a) by auto. rewrite IH by auto. reflexivity.
Qed.

(** ** The pull-request branch *)

(** X1.  A pull request without usable baseline -- no artifact for the
    base ref, or an artifact whose report cannot be parsed -- logs one
    warning naming the base ref and the file, and then reports on the head
    alone. *)
Theorem missing_baseline_warns_and_reports_on_the_head_alone
    (w : World) (s : state) (headCoverage : Coverage.t) :
  let filename := getInput w "filename" in
  let ref := envOr w "GITHUB_BASE_REF" in
  checkFileExists w filename = true ->
  env w "GITHUB_EVENT_NAME" = Some "pull_request" ->
  (downloadArtifacts w ref = Return None
   \/ exists dir, downloadArtifacts w ref = Return (Some dir)
                  /\ parseCoverage w (path_join dir filename) = Return None) ->
  parseCoverage w filename = Return (Some headCoverage) ->
  run w s
  = try_catch (generateMarkdown w headCoverage None) core_setFailed
      (mkState
         (log s ++ [DownloadArtifacts ref;
                    Warning (ref ++ " is missing " ++ filename
                               ++ ". See documentation on how to add this")])
         (buffer s)).
Proof.
  intros filename ref Hthere Hkind Hbase Hhead.
  rewrite (run_pull_request w s Hthere Hkind). fold filename. fold ref.
  destruct Hbase as [Hd|[dir [Hd Hp]]]; rewrite Hd; [|rewrite Hp];
    rewrite Hhead; reflexivity.
Qed.

(** X2.  A pull request whose head report cannot be parsed: after the
    download of the baseline the run signals that one failure, naming the
    file, and stops; no report, no output, whether there is a baseline or
    not. *)
Theorem unparsable_head_report_fails_without_report
    (w : World) (s : state) (artifactPath : option string)
    (baseCoverage : option Coverage.t) :
  let filename := getInput w "filename" in
  let ref := envOr w "GITHUB_BASE_REF" in
  checkFileExists w filename = true ->
  env w "GITHUB_EVENT_NAME" = Some "pull_request" ->
  downloadArtifacts w ref = Return artifactPath ->
  match artifactPath with
  | Some dir => parseCoverage w (path_join dir filename)
  | None => Return None
  end = Return baseCoverage ->
  parseCoverage w filename = Return None ->
  run w s
  = (mkState (log s ++ [DownloadArtifacts ref;
                        SetFailed ("Unable to process " ++ filename)])
             (buffer s),
     Return tt).
Proof.
  intros filename ref Hthere Hkind Hd Hb Hhead.
  rewrite (run_pull_request w s Hthere Hkind). fold filename. fold ref.
  rewrite Hd, Hb, Hhead. unfold core_setFailed, emit. cbn [log buffer].
  rewrite <- app_assoc. reflexivity.
Qed.

(** X3.  A pull request in which the download of the baseline, the parse
    of the baseline or the parse of the head throws: the message of the
    exception is signalled as the one failure of the run, which ends
    there, without report, and does not throw itself. *)
Theorem exception_before_the_report_is_the_one_failure
    (w : World) (s : state) (message : string) :
  let filename := getInput w "filename" in
  let ref := envOr w "GITHUB_BASE_REF" in
  checkFileExists w filename = true ->
  env w "GITHUB_EVENT_NAME" = Some "pull_request" ->
  (downloadArtifacts w ref = Throw message
   \/ (exists dir, downloadArtifacts w ref = Return (Some dir)
                   /\ parseCoverage w (path_join dir filename) = Throw message)
   \/ (exists artifactPath baseCoverage,
         downloadArtifacts w ref = Return artifactPath
         /\ match artifactPath with
            | Some dir => parseCoverage w (path_join dir filename)
            | None => Return None
            end = Return baseCoverage
         /\ parseCoverage w filename = Throw message)) ->
  run w s
  = (mkState (log s ++ [DownloadArtifacts ref; SetFailed message]) (buffer s),
     Return tt).
Proof.
  intros filename ref Hthere Hkind Hthrow.
  rewrite (run_pull_request w s Hthere Hkind). fold filename. fold ref.
  unfold core_setFailed, emit. cbn [log buffer].
  destruct Hthrow as [Hd|[[dir [Hd Hp]]|[a [b [Hd [Hb Hp]]]]]].
  - rewrite Hd. rewrite <- app_assoc. reflexivity.
  - rewrite Hd, Hp. rewrite <- app_assoc. reflexivity.
  - rewrite Hd, Hb, Hp. rewrite <- app_assoc. reflexivity.
Qed.

(** X4.  A pull-request run never uploads an artifact and never throws,
    whatever the outside answers: beyond the download of the baseline and
    the warning about a missing one, it logs report events only. *)
Theorem pull_request_run_never_uploads (w : World) (s : state) :
  env w "GITHUB_EVENT_NAME" = Some "pull_request" ->
  snd (run w s) = Return tt
  /\ exists l,
       log (fst (run w s)) = (log s ++ l)%list
       /\ (forall paths name, ~ In (UploadArtifacts paths name) l)
       /\ (forall e, In e l ->
                     reportEvent e = true
                     \/ e = DownloadArtifacts (envOr w "GITHUB_BASE_REF")
                     \/ exists m, e = Warning m).
Proof.
  intros Hkind.
  assert (Hevents : exists l,
             log (fst (run w s)) = (log s ++ l)%list
             /\ snd (run w s) = Return tt
             /\ (forall e, In e l ->
                           reportEvent e = true
                           \/ e = DownloadArtifacts (envOr w "GITHUB_BASE_REF")
                           \/ exists m, e = Warning m)).
  { destruct (checkFileExists w (getInput w "filename")) eqn:Hthere.
    - rewrite (run_pull_request w s Hthere Hkind).
      set (ref := envOr w "GITHUB_BASE_REF").
      set (filename := getInput w "filename").
      assert (Hfail : forall m,
                 exists l,
                   log (fst (core_setFailed m
                               (mkState (log s ++ [DownloadArtifacts ref]) (buffer s))))
                   = (log s ++ l)%list
                   /\ snd (core_setFailed m
                              (mkState (log s ++ [DownloadArtifacts ref]) (buffer s)))
                      = Return tt
                   /\ (forall e, In e l ->
                                 reportEvent e = true
                                 \/ e = DownloadArtifacts ref
                                 \/ exists m', e = Warning m')).
      { intros m. exists [DownloadArtifacts ref; SetFailed m].
        unfold core_setFailed, emit. cbn [fst snd log buffer].
        rewrite <- app_assoc. repeat split.
        intros e [<-|[<-|[]]]; auto. }
      assert (Hreport : forall h b pre,
                 (forall e, In e pre ->
                            e = DownloadArtifacts ref \/ exists m', e = Warning m') ->
                 exists l,
                   log (fst (try_catch (generateMarkdown w h b) core_setFailed
                               (mkState (log s ++ pre) (buffer s))))
                   = (log s ++ l)%list
                   /\ snd (try_catch (generateMarkdown w h b) core_setFailed
                              (mkState (log s ++ pre) (buffer s)))
                      = Return tt
                   /\ (forall e, In e l ->
                                 reportEvent e = true
                                 \/ e = DownloadArtifacts ref
                                 \/ exists m', e = Warning m')).
      { intros h b pre Hpre.
        destruct (generateMarkdown_caught w h b (mkState (log s ++ pre) (buffer s)))
          as [l [Hl [Hall Hret]]].
        exists (pre ++ l)%list. cbn [log] in Hl. rewrite Hl, app_assoc.
        repeat split; [exact Hret|].
        intros e I. apply in_app_or in I. destruct I as [I|I].
        - right. exact (Hpre e I).
        - left. rewrite Forall_forall in Hall. exact (Hall e I). }
      destruct (downloadArtifacts w ref) as [artifactPath|e]; [|apply Hfail].
      destruct (match artifactPath with
                | Some dir => parseCoverage w (path_join dir filename)
                | None => Return None
                end) as [baseCoverage|e]; [|apply Hfail].
      destruct (parseCoverage w filename) as [[headCoverage|]|e];
        [|apply Hfail|apply Hfail].
      destruct baseCoverage as [b|].
      + apply Hreport. intros e [<-|[]]. auto.
      + apply Hreport. intros e [<-|[<-|[]]]; eauto.
    - exists [SetFailed ("Unable to access " ++ getInput w "filename")].
      unfold run, try_catch. rewrite Hthere. cbn.
      repeat split. intros e [<-|[]]. auto. }
  destruct Hevents as [l [Hl [Hret Hall]]].
  split; [exact Hret|].
  exists l. repeat split; [exact Hl| |exact Hall].
  intros paths name I. destruct (Hall _ I) as [E|[E|[m E]]]; discriminate.
Qed.

(** ** Writing the report *)

(** X5.  When the report file cannot be written, [generateMarkdown]
    throws the error of the write.  What it has logged by then is, in
    this order: the failures of the run -- for each file of the head
    snapshot the file regression, if there is a baseline, the file-level
    toggle is on and the difference is negative; the overall percentage
    below the threshold; the overall regression, if there is a baseline,
    the overall-level toggle is on and the rounded difference is
    negative --, the line announcing the write, and the attempted write.
    No output is set and the job summary is not written. *)
Theorem failed_write_of_the_report_sets_no_output
    (w : World) (headCoverage : Coverage.t) (baseCoverage : option Coverage.t)
    (s : state) (message : string) :
  (forall data,
      writeFile w (markdownFilename (getInputs w) ++ ".md") data = Throw message) ->
  let i := getInputs w in
  let result := generateMarkdown w headCoverage baseCoverage s in
  let fileFailures entry :=
    match baseCoverage with
    | Some b =>
        match differencePercentage b (fst entry) (snd entry),
              lookup (fst entry) (Coverage.files headCoverage) with
        | Some d, Some headFile =>
            if failOnNegativeDifference i && Qltb d 0
            then [(CoverageFile.relative headFile ++ " coverage difference was "
                     ++ Number_toString d ++ "%")%string]
            else []
        | _, _ => []
        end
    | None => []
    end in
  let thresholdFailure :=
    if Qltb (Coverage.coverage headCoverage) (overallCoverageFailThreshold i)
    then [("FAIL: Overall coverage of "
             ++ Number_toString (Coverage.coverage headCoverage)
             ++ "% below minimum threshold of "
             ++ Number_toString (overallCoverageFailThreshold i) ++ "%")%string]
    else [] in
  let overallFailure :=
    match baseCoverage with
    | Some b =>
        let d := roundPercentage
                   (Coverage.coverage headCoverage - Coverage.coverage b) in
        if failOnNegativeOverallDifference i && Qltb d 0
        then [("Coverage dropped by " ++ Number_toString d ++ "%")%string]
        else []
    | None => []
    end in
  snd result = Throw message
  /\ exists raised data,
       log (fst result)
       = (log s ++ raised
            ++ [Info ("Writing results to " ++ markdownFilename i ++ ".md");
                WriteFile (markdownFilename i ++ ".md") data])%list
       /\ (forall e, In e raised -> exists m, e = SetFailed m)
       /\ failures raised
          = (flat_map fileFailures (Coverage.files headCoverage)
               ++ thresholdFailure ++ overallFailure)%list
       /\ (forall name value,
              ~ In (SetOutput name value)
                  (raised
                     ++ [Info ("Writing results to " ++ markdownFilename i ++ ".md");
                         WriteFile (markdownFilename i ++ ".md") data]))
       /\ (forall text,
              ~ In (SummaryWrite text)
                  (raised
                     ++ [Info ("Writing results to " ++ markdownFilename i ++ ".md");
                         WriteFile (markdownFilename i ++ ".md") data])).
Proof.
  intros Hwrite i result fileFailures thresholdFailure overallFailure.
  subst result. rewrite generateMarkdown_run. unfold reportPath. rewrite Hwrite.
  fold i. split; [reflexivity|].
  exists (signals i headCoverage baseCoverage).
  exists (reportText w headCoverage baseCoverage s).
  cbn [fst log].
  split; [reflexivity|]. split; [|split; [|split]].
  - intros e I. exact (signals_are_failures _ _ _ _ I).
  - unfold signals. rewrite !failures_app. f_equal; [|f_equal].
    + rewrite failures_flat_map. apply flat_map_ext_in.
      intros entry _. subst fileFailures. unfold fileSignals. cbv beta.
      destruct baseCoverage as [b|]; [|reflexivity].
      destruct (differencePercentage b (fst entry) (snd entry)) as [d|]; simpl.
      * destruct (lookup (fst entry) (Coverage.files headCoverage)).
        -- destruct (failOnNegativeDifference i && Qltb d 0); reflexivity.
        -- destruct (failOnNegativeDifference i && Qltb d 0); reflexivity.
      * rewrite andb_false_r. reflexivity.
    + subst thresholdFailure. unfold thresholdSignal.
      destruct (Qltb _ _); reflexivity.
    + subst overallFailure. unfold overallSignal.
      destruct baseCoverage as [b|]; simpl.
      * destruct (failOnNegativeOverallDifference i && Qltb _ 0); reflexivity.
      * rewrite andb_false_r. reflexivity.
  - intros name value I. rewrite in_app_iff in I.
    destruct I as [I|[E|[E|[]]]]; try discriminate.
    destruct (signals_are_failures _ _ _ _ I) as [m E]. discriminate.
  - intros text I. rewrite in_app_iff in I.
    destruct I as [I|[E|[E|[]]]]; try discriminate.
    destruct (signals_are_failures _ _ _ _ I) as [m E]. discriminate.
Qed.

(** X6.  [generateMarkdown] throws only what the write of the report
    file or the write of the job summary throws: building the rows, the
    checks and the blocks never throws, whatever the snapshots. *)
Theorem generateMarkdown_throws_only_what_a_write_throws
    (w : World) (headCoverage : Coverage.t) (baseCoverage : option Coverage.t)
    (s : state) (message : string) :
  snd (generateMarkdown w headCoverage baseCoverage s) = Throw message ->
  (exists data,
      writeFile w (markdownFilename (getInputs w) ++ ".md") data = Throw message)
  \/ (exists data, summary_write w data = Throw message).
Proof.
  rewrite generateMarkdown_run. unfold reportPath.
  destruct (writeFile w _ _) as [[]|e] eqn:Hw;
    [destruct (summary_write w _) as [[]|e] eqn:Hs|]; cbn [snd]; intros E.
  - discriminate.
  - injection E as ->. right. eexists. exact Hs.
  - injection E as ->. left. eexists. exact Hw.
Qed.

(** ** The failures of a report *)

Lemma failures_generateMarkdown (w : World) (headCoverage : Coverage.t)
    (baseCoverage : option Coverage.t) (s : state) :
  failures (log (fst (generateMarkdown w headCoverage baseCoverage s)))
  = (failures (log s)
       ++ failures (signals (getInputs w) headCoverage baseCoverage))%list.
Proof.
  rewrite generateMarkdown_run.
  destruct (writeFile w _ _); [destruct (summary_write w _)|]; cbn [fst log];
    rewrite !failures_app; simpl; rewrite ?app_nil_r; reflexivity.
Qed.

(** X7.  With a baseline, the failures [generateMarkdown] signals are
    exactly these, in this order: for each file of the head snapshot, in
    the order of its entries, the file regression if the file-level
    toggle is on and the file's difference is negative; then the overall
    percentage below the threshold; then the overall regression if the
    overall-level toggle is on and the rounded overall difference is
    negative.  The report toggles and the writes change nothing here. *)
Theorem failures_of_a_report_with_baseline
    (w : World) (headCoverage baseCoverage : Coverage.t) (s : state) :
  wf_files (Coverage.files headCoverage) ->
  let i := getInputs w in
  let overall :=
    roundPercentage
      (Coverage.coverage headCoverage - Coverage.coverage baseCoverage) in
  failures (log (fst (generateMarkdown w headCoverage (Some baseCoverage) s)))
  = (failures (log s)
       ++ flat_map
            (fun entry =>
               match differencePercentage baseCoverage (fst entry) (snd entry) with
               | Some d =>
                   if failOnNegativeDifference i && Qltb d 0
                   then [(CoverageFile.relative (snd entry)
                           ++ " coverage difference was "
                           ++ Number_toString d ++ "%")%string]
                   else []
               | None => []
               end)
            (Coverage.files headCoverage)
       ++ (if Qltb (Coverage.coverage headCoverage) (overallCoverageFailThreshold i)
           then [("FAIL: Overall coverage of "
                   ++ Number_toString (Coverage.coverage headCoverage)
                   ++ "% below minimum threshold of "
                   ++ Number_toString (overallCoverageFailThreshold i) ++ "%")%string]
           else [])
       ++ (if failOnNegativeOverallDifference i && Qltb overall 0
           then [("Coverage dropped by " ++ Number_toString overall ++ "%")%string]
           else []))%list.
Proof.
  intros Hwf i overall. rewrite failures_generateMarkdown. fold i.
  f_equal. unfold signals. rewrite !failures_app. f_equal; [|f_equal].
  - rewrite failures_flat_map. apply flat_map_ext_in.
    intros [hash file] Hin. unfold fileSignals. simpl fst. simpl snd.
    rewrite (lookup_wf hash file Hwf Hin).
    destruct (differencePercentage baseCoverage hash file) as [d|]; simpl.
    + destruct (failOnNegativeDifference i && Qltb d 0); reflexivity.
    + rewrite andb_false_r. reflexivity.
  - unfold thresholdSignal. destruct (Qltb _ _); reflexivity.
  - unfold overallSignal. simpl. fold overall.
    destruct (failOnNegativeOverallDifference i && Qltb overall 0); reflexivity.
Qed.

(** X8.  Without a baseline the only failure [generateMarkdown] can
    signal is the overall percentage below the threshold, and it signals
    it exactly when the percentage is strictly below: at the threshold
    there is none.  Neither regression toggle matters. *)
Theorem failures_of_a_report_without_baseline
    (w : World) (headCoverage : Coverage.t) (s : state) :
  let i := getInputs w in
  let result := generateMarkdown w headCoverage None s in
  (Coverage.coverage headCoverage < overallCoverageFailThreshold i ->
   failures (log (fst result))
   = (failures (log s)
        ++ [("FAIL: Overall coverage of "
              ++ Number_toString (Coverage.coverage headCoverage)
              ++ "% below minimum threshold of "
              ++ Number_toString (overallCoverageFailThreshold i) ++ "%")%string])%list)
  /\ (overallCoverageFailThreshold i <= Coverage.coverage headCoverage ->
      failures (log (fst result)) = failures (log s)).
Proof.
  intros i result. subst result. rewrite failures_generateMarkdown. fold i.
  assert (Hfiles : forall entries,
             flat_map (fileSignals i headCoverage None) entries = []).
  { induction entries as [|e entries IH]; [reflexivity|exact IH]. }
  unfold signals, overallSignal, thresholdSignal. rewrite Hfiles.
  simpl overallDifferencePercentage. simpl isNegative. rewrite andb_false_r.
  split.
  - intros Hlow. apply Qltb_lt in Hlow. rewrite Hlow. reflexivity.
  - intros Hok. apply Qltb_ge in Hok. rewrite Hok. simpl.
    rewrite app_nil_r. reflexivity.
Qed.

Lemma failures_nil (l : list event) :
  (forall e, In e l -> exists m, e = SetFailed m) ->
  failures l = [] -> l = [].
Proof.
  destruct l as [|e l]; [reflexivity|].
  intros Hall. destruct (Hall e (or_introl eq_refl)) as [m ->]. discriminate.
Qed.

Lemma flat_map_nil {A B} (f : A -> list B) (l : list A) :
  flat_map f l = [] <-> forall a, In a l -> f a = [].
Proof.
  induction l as [|a l IH]; simpl.
  - split; [intros _ a []|reflexivity].
  - split.
    + intros E. apply app_eq_nil in E. destruct E as [Ea El].
      intros a' [<-|I]; [exact Ea|]. apply IH; assumption.
    + intros Hall. rewrite (Hall a) by auto. apply IH. intros a' I. auto.
Qed.

(** X9.  With a baseline, [generateMarkdown] signals no failure exactly
    when the overall percentage is at least the threshold, the rounded
    overall difference is not negative (or the overall-level toggle is
    off), and no file of the head snapshot has a negative difference (or
    the file-level toggle is off). *)
Theorem report_with_baseline_passes_iff
    (w : World) (headCoverage baseCoverage : Coverage.t) (s : state) :
  let i := getInputs w in
  failures (log (fst (generateMarkdown w headCoverage (Some baseCoverage) s)))
  = failures (log s)
  <-> overallCoverageFailThreshold i <= Coverage.coverage headCoverage
      /\ (failOnNegativeOverallDifference i = true ->
          0 <= roundPercentage
                 (Coverage.coverage headCoverage - Coverage.coverage baseCoverage))
      /\ (failOnNegativeDifference i = true ->
          forall hash file d,
            In (hash, file) (Coverage.files headCoverage) ->
            differencePercentage baseCoverage hash file = Some d ->
            0 <= d).
Proof.
  intros i. rewrite failures_generateMarkdown. fold i.
  assert (Hnil : (failures (log s)
                    ++ failures (signals i headCoverage (Some baseCoverage)))%list
                 = failures (log s)
                 <-> signals i headCoverage (Some baseCoverage) = []).
  { split.
    - intros E. apply failures_nil; [apply signals_are_failures|].
      rewrite <- (app_nil_r (failures (log s))) in E at 2.
      exact (app_inv_head _ _ _ E).
    - intros ->. apply app_nil_r. }
  rewrite Hnil. unfold signals. split.
  - intros E. apply app_eq_nil in E. destruct E as [Ef E].
    apply app_eq_nil in E. destruct E as [Et Eo].
    split; [|split].
    + unfold thresholdSignal in Et.
      destruct (Qltb _ _) eqn:L; [discriminate|]. apply Qltb_ge. exact L.
    + intros Htoggle. unfold overallSignal in Eo. rewrite Htoggle in Eo.
      simpl in Eo. destruct (Qltb _ 0) eqn:L; [discriminate|].
      apply Qltb_ge. exact L.
    + intros Htoggle hash file d Hin Hd.
      rewrite flat_map_nil in Ef. specialize (Ef _ Hin).
      unfold fileSignals in Ef. simpl fst in Ef. simpl snd in Ef.
      rewrite Htoggle, Hd in Ef. simpl in Ef.
      destruct (Qltb d 0) eqn:L; [|apply Qltb_ge; exact L].
      destruct (lookup hash (Coverage.files headCoverage)) eqn:Hl;
        [discriminate|].
      exfalso. exact (lookup_In _ _ _ Hin Hl).
  - intros [Ht [Ho Hf]].
    assert (Et : thresholdSignal i headCoverage = []).
    { unfold thresholdSignal. apply Qltb_ge in Ht. rewrite Ht. reflexivity. }
    assert (Eo : overallSignal i headCoverage (Some baseCoverage) = []).
    { unfold overallSignal. destruct (failOnNegativeOverallDifference i);
        [|reflexivity].
      specialize (Ho eq_refl). apply Qltb_ge in Ho. simpl. rewrite Ho.
      reflexivity. }
    rewrite Et, Eo, !app_nil_r. apply flat_map_nil.
    intros [hash file] Hin. unfold fileSignals. simpl fst. simpl snd.
    destruct (failOnNegativeDifference i); [|reflexivity].
    destruct (differencePercentage baseCoverage hash file) as [d|] eqn:Hd;
      [|reflexivity].
    pose proof (Hf eq_refl hash file d Hin Hd) as Hpos.
    apply Qltb_ge in Hpos. simpl. rewrite Hpos. reflexivity.
Qed.

(** ** The per-file table *)

(** X10.  When the per-file table is reported, the written report holds
    a table of one header row and one row for each file of the head
    snapshot, in the order of its entries, each starting with the
    relative path of the file; header and rows are 4 cells wide with a
    baseline and 2 cells wide without.  Files the baseline alone has get
    no row. *)
Theorem per_file_table_follows_the_head_snapshot
    (w : World) (headCoverage : Coverage.t) (baseCoverage : option Coverage.t)
    (s : state) :
  reportPackageCoverage (getInputs w) = true ->
  exists before header rows after,
    In (WriteFile (markdownFilename (getInputs w) ++ ".md")
          (Summary_stringify
             (before ++ Table (HeaderCells header :: List.map Cells rows) :: after)))
       (log (fst (generateMarkdown w headCoverage baseCoverage s)))
    /\ List.map (hd "") rows
       = List.map (fun entry => CoverageFile.relative (snd entry))
           (Coverage.files headCoverage)
    /\ length header = (match baseCoverage with Some _ => 4 | None => 2 end)%nat
    /\ Forall (fun cells => length cells = length header) rows.
Proof.
  intros Hpkg.
  destruct (generateMarkdown_log_prefix w headCoverage baseCoverage s)
    as [rest Hlog].
  set (i := getInputs w) in *.
  exists (buffer s ++ Heading "Code Coverage Report"
            :: badgeBlocks i headCoverage
            ++ overallBlocks i headCoverage baseCoverage)%list.
  exists (match baseCoverage with
          | None => [("Package", true); ("Coverage", true)]
          | Some _ =>
              [("Package", true); ("Base Coverage", true);
               ("New Coverage", true); ("Difference", true)]
          end).
  exists (List.map (fileCells i baseCoverage) (Coverage.files headCoverage)).
  eexists. split; [|split; [|split]].
  - rewrite Hlog. rewrite !in_app_iff. right. right. left. right. left.
    unfold reportPath, reportText, reportBlocks, packageBlocks,
      generatePackageCoverageReport. fold i.
    rewrite Hpkg. f_equal. f_equal.
    rewrite <- !app_assoc. simpl. rewrite <- !app_assoc. reflexivity.
  - rewrite map_map. apply map_ext. intros [hash file].
    unfold fileCells. destruct baseCoverage; reflexivity.
  - destruct baseCoverage; reflexivity.
  - apply Forall_forall. intros cells I. apply in_map_iff in I.
    destruct I as [entry [<- _]]. unfold fileCells.
    destruct baseCoverage; reflexivity.
Qed.

(** X11.  [generateMarkdown] reads the files of the baseline only at the
    keys of the head snapshot: two baselines with the same overall
    percentage that agree at those keys give the same run, so files the
    baseline alone has (deleted since) neither show nor fail. *)
Theorem files_of_the_baseline_alone_are_ignored
    (w : World) (headCoverage baseCoverage baseCoverage' : Coverage.t)
    (s : state) :
  Coverage.coverage baseCoverage' = Coverage.coverage baseCoverage ->
  (forall hash,
      In hash (map fst (Coverage.files headCoverage)) ->
      lookup hash (Coverage.files baseCoverage')
      = lookup hash (Coverage.files baseCoverage)) ->
  generateMarkdown w headCoverage (Some baseCoverage') s
  = generateMarkdown w headCoverage (Some baseCoverage) s.
Proof.
  intros Hcov Hfiles.
  assert (Hbase : forall hash file,
             In (hash, file) (Coverage.files headCoverage) ->
             baseCoveragePercentage baseCoverage' hash
             = baseCoveragePercentage baseCoverage hash).
  { intros hash file Hin. unfold baseCoveragePercentage.
    rewrite Hfiles; [reflexivity|].
    change hash with (fst (hash, file)). apply in_map. exact Hin. }
  assert (Hdiff : forall hash file,
             In (hash, file) (Coverage.files headCoverage) ->
             differencePercentage baseCoverage' hash file
             = differencePercentage baseCoverage hash file).
  { intros hash file Hin. unfold differencePercentage.
    rewrite (Hbase hash file Hin). reflexivity. }
  assert (Hsig : signals (getInputs w) headCoverage (Some baseCoverage')
                 = signals (getInputs w) headCoverage (Some baseCoverage)).
  { unfold signals. f_equal; [|f_equal].
    - apply flat_map_ext_in. intros [hash file] Hin.
      unfold fileSignals. simpl fst. simpl snd.
      rewrite (Hdiff hash file Hin). reflexivity.
    - unfold overallSignal, overallDifferencePercentage. rewrite Hcov.
      reflexivity. }
  assert (Hblocks : reportBlocks (getInputs w) headCoverage (Some baseCoverage')
                    = reportBlocks (getInputs w) headCoverage (Some baseCoverage)).
  { unfold reportBlocks, overallBlocks, packageBlocks,
      overallDifferencePercentage. simpl option_map. rewrite Hcov.
    f_equal. f_equal. f_equal.
    destruct (reportPackageCoverage (getInputs w)); [|reflexivity].
    f_equal. f_equal. unfold generatePackageCoverageReport. f_equal. f_equal.
    apply map_ext_in. intros [hash file] Hin. unfold fileCells.
    simpl fst. simpl snd.
    rewrite (Hbase hash file Hin), (Hdiff hash file Hin). reflexivity. }
  rewrite !generateMarkdown_run. unfold reportText.
  rewrite Hsig, Hblocks. reflexivity.
Qed.

(** X14.  A file of the head snapshot that the baseline has with a
    percentage other than zero: the Difference cell shows the rounded
    difference of the two percentages, coloured without thresholds, and
    the regression of the file is signalled exactly when the file-level
    toggle is on and that rounded difference is negative. *)
Theorem row_of_a_file_with_a_nonzero_baseline
    (i : Inputs) (headCoverage baseCoverage : Coverage.t) (hash : string)
    (file baseFile : CoverageFile.t) (s : state) :
  lookup hash (Coverage.files headCoverage) = Some file ->
  lookup hash (Coverage.files baseCoverage) = Some baseFile ->
  ~ CoverageFile.coverage baseFile == 0 ->
  let d := roundPercentage
             (CoverageFile.coverage file - CoverageFile.coverage baseFile) in
  fileRow i headCoverage (Some baseCoverage) (hash, file) s
  = (mkState
       (log s
          ++ (if failOnNegativeDifference i && Qltb d 0
              then [SetFailed (CoverageFile.relative file
                                 ++ " coverage difference was "
                                 ++ Number_toString d ++ "%")]
              else []))
       (buffer s),
     Return [ CoverageFile.relative file;
              colorizePercentageByThreshold (Some (CoverageFile.coverage baseFile))
                (Some (fileCoverageWarningMax i)) (Some (fileCoverageErrorMin i));
              colorizePercentageByThreshold (Some (CoverageFile.coverage file))
                (Some (fileCoverageWarningMax i)) (Some (fileCoverageErrorMin i));
              colorizePercentageByThreshold (Some d) None None ]).
Proof.
  intros Hhead Hbase Hnz d.
  rewrite fileRow_run by (simpl; congruence).
  unfold fileSignals, fileCells. simpl fst. simpl snd.
  rewrite (differencePercentage_present baseCoverage hash file Hbase Hnz).
  fold d. unfold baseCoveragePercentage. rewrite Hbase, Hhead. simpl.
  destruct (failOnNegativeDifference i && Qltb d 0); reflexivity.
Qed.

(** ** The sections of the report *)

(** X12.  The written report is what the summary held before, then the
    heading, then the sections that are switched on, in this order: the
    badge; the overall block between two breaks; the per-file table --
    its header and the rows the map over the head's entries returned --,
    a break and the line about the minimum allowed coverage.  A section
    that is switched off leaves nothing: with all three off the report
    ends with the heading, and without the per-file section there is no
    table and no line about the minimum. *)
Theorem report_is_the_heading_and_the_sections_switched_on
    (w : World) (headCoverage : Coverage.t) (baseCoverage : option Coverage.t)
    (s : state) :
  let i := getInputs w in
  let current := Coverage.coverage headCoverage in
  exists map,
    snd (mapM (fileRow i headCoverage baseCoverage)
           (Coverage.files headCoverage) s) = Return map
    /\ In (WriteFile (markdownFilename i ++ ".md")
             (Summary_stringify
                (buffer s
                   ++ Heading "Code Coverage Report"
                   :: (if badge i then
                         [Image
                            ("https://img.shields.io/badge/"
                               ++ encodeURIComponent
                                    ("Code Coverage-" ++ Number_toString current
                                       ++ "%-"
                                       ++ colorizeBadgeByThreshold (Some current)
                                            (Some (fileCoverageErrorMin i))
                                            (Some (fileCoverageWarningMax i)))
                               ++ "?style=flat")
                            "Code Coverage"]
                       else [])
                   ++ (if reportOverallCoverage i then
                         [Break;
                          Raw (generateOverallCoverageReport current
                                 (option_map Coverage.coverage baseCoverage)
                                 (overallDifferencePercentage headCoverage
                                    baseCoverage)
                                 (fileCoverageErrorMin i)
                                 (fileCoverageWarningMax i));
                          Break]
                       else [])
                   ++ (if reportPackageCoverage i then
                         [Table (generatePackageCoverageReport baseCoverage map);
                          Break;
                          Raw ("<i>Minimum allowed coverage is</i> <code>"
                                 ++ Number_toString (overallCoverageFailThreshold i)
                                 ++ "%</code>, this run produced</i> <code>"
                                 ++ Number_toString current ++ "%</code>")]
                       else []))))
          (log (fst (generateMarkdown w headCoverage baseCoverage s))).
Proof.
  intros i current.
  exists (List.map (fileCells i baseCoverage) (Coverage.files headCoverage)).
  split.
  - rewrite mapM_fileRow_run
      by (intros [k f] I; simpl; exact (lookup_In _ _ _ I)).
    reflexivity.
  - destruct (generateMarkdown_log_prefix w headCoverage baseCoverage s)
      as [tail Hlog].
    rewrite Hlog. rewrite !in_app_iff. right. right. left. right. left.
    reflexivity.
Qed.

(** X16.  The badge of the report: switched on, it is the block right
    after the heading, an image of the overall percentage of the head
    coloured by the configured thresholds (error minimum first, warning
    maximum second); switched off, the report holds no image at all. *)
Theorem badge_follows_the_heading_when_switched_on
    (w : World) (headCoverage : Coverage.t) (baseCoverage : option Coverage.t)
    (s : state) :
  let i := getInputs w in
  let current := Coverage.coverage headCoverage in
  let image :=
    Image
      ("https://img.shields.io/badge/"
         ++ encodeURIComponent
              ("Code Coverage-" ++ Number_toString current ++ "%-"
                 ++ colorizeBadgeByThreshold (Some current)
                      (Some (fileCoverageErrorMin i))
                      (Some (fileCoverageWarningMax i)))
         ++ "?style=flat")
      "Code Coverage" in
  exists rest,
    In (WriteFile (markdownFilename i ++ ".md")
          (Summary_stringify
             (buffer s ++ Heading "Code Coverage Report"
                :: (if badge i then [image] else []) ++ rest)))
       (log (fst (generateMarkdown w headCoverage baseCoverage s)))
    /\ (forall src alt, ~ In (Image src alt) rest).
Proof.
  intros i current image.
  destruct (generateMarkdown_log_prefix w headCoverage baseCoverage s)
    as [tail Hlog].
  exists (overallBlocks i headCoverage baseCoverage
            ++ packageBlocks i headCoverage baseCoverage)%list.
  split.
  - rewrite Hlog. rewrite !in_app_iff. right. right. left. right. left.
    reflexivity.
  - intros src alt I. unfold overallBlocks, packageBlocks in I.
    destruct (reportOverallCoverage i); destruct (reportPackageCoverage i);
      simpl in I; repeat (destruct I as [E|I]; [discriminate|]); destruct I.
Qed.

(** X15.  Without a baseline, the overall block of the written report is
    the one-row table: Current alone, coloured by the configured
    thresholds. *)
Theorem overall_block_without_baseline_is_current_alone
    (w : World) (headCoverage : Coverage.t) (s : state) :
  reportOverallCoverage (getInputs w) = true ->
  let i := getInputs w in
  let current := Coverage.coverage headCoverage in
  exists before after,
    In (WriteFile (markdownFilename i ++ ".md")
          (Summary_stringify
             (before
                ++ Raw (markdownTable
                          [ [""; ""];
                            [ "Current";
                              overallBadge "Current" (Number_toString current)
                                (colorizeBadgeByThreshold (Some current)
                                   (Some (fileCoverageErrorMin i))
                                   (Some (fileCoverageWarningMax i))) ] ])
                :: after)))
       (log (fst (generateMarkdown w headCoverage None s))).
Proof.
  intros Hovl i current.
  exact (overall_block_is_written w headCoverage None s Hovl).
Qed.

(** X17.  A pull request with a baseline: the artifact of the base ref is
    downloaded, the baseline is the report of the same name inside it,
    and the run is the report of the head against that baseline, under
    the catch; no warning is logged. *)
Theorem pull_request_with_baseline_reports_against_it
    (w : World) (s : state) (dir : string)
    (headCoverage baseCoverage : Coverage.t) :
  let filename := getInput w "filename" in
  let ref := envOr w "GITHUB_BASE_REF" in
  checkFileExists w filename = true ->
  env w "GITHUB_EVENT_NAME" = Some "pull_request" ->
  downloadArtifacts w ref = Return (Some dir) ->
  parseCoverage w (path_join dir filename) = Return (Some baseCoverage) ->
  parseCoverage w filename = Return (Some headCoverage) ->
  run w s
  = try_catch (generateMarkdown w headCoverage (Some baseCoverage)) core_setFailed
      (mkState (log s ++ [DownloadArtifacts ref]) (buffer s))
  /\ forall message, ~ In (Warning message) (log s) ->
                     ~ In (Warning message) (log (fst (run w s))).
Proof.
  intros filename ref Hthere Hkind Hd Hb Hhead.
  assert (Hrun : run w s
                 = try_catch (generateMarkdown w headCoverage (Some baseCoverage))
                     core_setFailed
                     (mkState (log s ++ [DownloadArtifacts ref]) (buffer s))).
  { rewrite (run_pull_request w s Hthere Hkind). fold filename. fold ref.
    rewrite Hd, Hb, Hhead. reflexivity. }
  split; [exact Hrun|].
  intros message Hold I. rewrite Hrun in I.
  destruct (generateMarkdown_caught w headCoverage (Some baseCoverage)
              (mkState (log s ++ [DownloadArtifacts ref]) (buffer s)))
    as [l [Hl [Hall _]]].
  rewrite Hl in I. cbn [log] in I. rewrite !in_app_iff in I.
  destruct I as [[I|[E|[]]]|I]; [exact (Hold I)|discriminate|].
  rewrite Forall_forall in Hall. specialize (Hall _ I). discriminate.
Qed.

End Further.

(** X1, on a branch without baseline artifact. *)
Lemma missing_baseline_witness :
  let w := Sample.pull_request (Sample.inputs true true 50) (Some Sample.head) None in
  run w Sample.start
  = try_catch (generateMarkdown w Sample.head None) core_setFailed
      (mkState
         [DownloadArtifacts "main";
          Warning "main is missing cov.xml. See documentation on how to add this"]
         []).
Proof.
  refine (missing_baseline_warns_and_reports_on_the_head_alone
            (Sample.pull_request (Sample.inputs true true 50) (Some Sample.head) None)
            Sample.start (headCoverage := Sample.head) _ _ _ _).
  - reflexivity.
  - reflexivity.
  - left. reflexivity.
  - reflexivity.
Defined.

(** X2, with a baseline at hand. *)
Lemma unparsable_head_report_witness :
  run (Sample.pull_request (Sample.inputs true true 50) None (Some Sample.base))
      Sample.start
  = (mkState [DownloadArtifacts "main"; SetFailed "Unable to process cov.xml"] [],
     Return tt).
Proof.
  refine (unparsable_head_report_fails_without_report
            (Sample.pull_request (Sample.inputs true true 50) None (Some Sample.base))
            Sample.start (artifactPath := Some "artifacts")
            (baseCoverage := Some Sample.base) _ _ _ _ _);
    reflexivity.
Defined.

(** X3, with an artifact store that refuses the download. *)
Lemma exception_before_the_report_witness :
  run (withDownloadArtifacts
         (Sample.pull_request (Sample.inputs true true 50)
            (Some Sample.head) (Some Sample.base))
         (fun _ => Throw "Bad credentials"))
      Sample.start
  = (mkState [DownloadArtifacts "main"; SetFailed "Bad credentials"] [],
     Return tt).
Proof.
  refine (exception_before_the_report_is_the_one_failure
            (withDownloadArtifacts
               (Sample.pull_request (Sample.inputs true true 50)
                  (Some Sample.head) (Some Sample.base))
               (fun _ => Throw "Bad credentials"))
            Sample.start (message := "Bad credentials") _ _ _).
  - reflexivity.
  - reflexivity.
  - left. reflexivity.
Defined.

(** X4, on the sample pull request. *)
Lemma pull_request_run_never_uploads_witness :
  let w := Sample.pull_request (Sample.inputs true true 50)
             (Some Sample.head) (Some Sample.base) in
  snd (run w Sample.start) = Return tt
  /\ exists l,
       log (fst (run w Sample.start)) = (log Sample.start ++ l)%list
       /\ (forall paths name, ~ In (UploadArtifacts paths name) l)
       /\ (forall e, In e l ->
                     reportEvent e = true
                     \/ e = DownloadArtifacts (envOr w "GITHUB_BASE_REF")
                     \/ exists m, e = Warning m).
Proof.
  refine (pull_request_run_never_uploads
            (Sample.pull_request (Sample.inputs true true 50)
               (Some Sample.head) (Some Sample.base))
            Sample.start _).
  reflexivity.
Defined.

(** X5, on a disk that takes no file: the three failures of the sample
    pull request are logged, the write is attempted, no output is set. *)
Lemma failed_write_of_the_report_witness :
  let w := withWriteFile
             (Sample.pull_request (Sample.inputs true true 50)
                (Some Sample.head) (Some Sample.base))
             (fun _ _ => Throw "ENOSPC: no space left on device") in
  let result := generateMarkdown w Sample.head (Some Sample.base) Sample.start in
  snd result = Throw "ENOSPC: no space left on device"
  /\ exists raised data,
       log (fst result)
       = (raised
            ++ [Info "Writing results to code-coverage-results.md";
                WriteFile "code-coverage-results.md" data])%list
       /\ failures raised
          = [ "a.ts coverage difference was -5%";
              "b.ts coverage difference was -5%";
              "Coverage dropped by -5%" ]
       /\ (forall name value, ~ In (SetOutput name value) (log (fst result)))
       /\ (forall text, ~ In (SummaryWrite text) (log (fst result))).
Proof.
  intros w result.
  destruct (failed_write_of_the_report_sets_no_output
              (withWriteFile
                 (Sample.pull_request (Sample.inputs true true 50)
                    (Some Sample.head) (Some Sample.base))
                 (fun _ _ => Throw "ENOSPC: no space left on device"))
              Sample.head (Some Sample.base) Sample.start
              (message := "ENOSPC: no space left on device")
              (fun data => eq_refl))
    as [Hthrow [raised [data [Hlog [_ [Hfail [Hout Hsum]]]]]]].
  split; [exact Hthrow|].
  exists raised, data.
  split; [exact Hlog|]. split; [exact Hfail|].
  split.
  - intros name value I. apply (Hout name value).
    fold w in Hlog. fold result in Hlog. rewrite Hlog in I. exact I.
  - intros text I. apply (Hsum text).
    fold w in Hlog. fold result in Hlog. rewrite Hlog in I. exact I.
Defined.

(** X6, on the same disk. *)
Lemma generateMarkdown_throws_witness :
  let w := withWriteFile
             (Sample.pull_request (Sample.inputs true true 50)
                (Some Sample.head) (Some Sample.base))
             (fun _ _ => Throw "ENOSPC: no space left on device") in
  (exists data,
      writeFile w "code-coverage-results.md" data
      = Throw "ENOSPC: no space left on device")
  \/ (exists data, summary_write w data = Throw "ENOSPC: no space left on device").
Proof.
  refine (generateMarkdown_throws_only_what_a_write_throws
            (withWriteFile
               (Sample.pull_request (Sample.inputs true true 50)
                  (Some Sample.head) (Some Sample.base))
               (fun _ _ => Throw "ENOSPC: no space left on device"))
            Sample.head (Some Sample.base) Sample.start
            (message := "ENOSPC: no space left on device") _).
  reflexivity.
Defined.

(** X7, on the sample snapshots with every check on and a threshold of 80:
    two files regress, the overall percentage is too low and has
    dropped. *)
Lemma failures_of_a_report_with_baseline_witness :
  failures (log (fst (generateMarkdown
                        (Sample.pull_request (Sample.inputs true true 80)
                           (Some Sample.head) (Some Sample.base))
                        Sample.head (Some Sample.base) Sample.start)))
  = [ "a.ts coverage difference was -5%";
      "b.ts coverage difference was -5%";
      "FAIL: Overall coverage of 70% below minimum threshold of 80%";
      "Coverage dropped by -5%" ].
Proof.
  refine (failures_of_a_report_with_baseline
            (Sample.pull_request (Sample.inputs true true 80)
               (Some Sample.head) (Some Sample.base))
            Sample.head Sample.base Sample.start _).
  unfold wf_files. simpl.
  repeat constructor; simpl; intuition discriminate.
Defined.

(** X8, at the threshold itself: 40 percent against a threshold of 40. *)
Lemma failures_of_a_report_without_baseline_witness :
  failures (log (fst (generateMarkdown
                        (Sample.pull_request (Sample.inputs true true 40)
                           (Some Sample.head_low) None)
                        Sample.head_low None Sample.start)))
  = [].
Proof.
  refine (proj2 (failures_of_a_report_without_baseline
                   (Sample.pull_request (Sample.inputs true true 40)
                      (Some Sample.head_low) None)
                   Sample.head_low Sample.start) _).
  discriminate.
Defined.

(** X10, on the sample snapshots. *)
Lemma per_file_table_witness :
  let w := Sample.pull_request (Sample.inputs true true 50)
             (Some Sample.head) (Some Sample.base) in
  exists before header rows after,
    In (WriteFile "code-coverage-results.md"
          (Summary_stringify
             (before ++ Table (HeaderCells header :: List.map Cells rows) :: after)))
       (log (fst (generateMarkdown w Sample.head (Some Sample.base) Sample.start)))
    /\ List.map (hd "") rows = ["a.ts"; "b.ts"; "c.ts"]
    /\ length header = 4%nat
    /\ Forall (fun cells => length cells = length header) rows.
Proof.
  refine (per_file_table_follows_the_head_snapshot
            (Sample.pull_request (Sample.inputs true true 50)
               (Some Sample.head) (Some Sample.base))
            Sample.head (Some Sample.base) Sample.start _).
  reflexivity.
Defined.

(** X11, with a baseline that still has the deleted old.ts. *)
Lemma files_of_the_baseline_alone_witness :
  let w := Sample.pull_request (Sample.inputs true true 50)
             (Some Sample.head) (Some Sample.base_with_deleted) in
  generateMarkdown w Sample.head (Some Sample.base_with_deleted) Sample.start
  = generateMarkdown w Sample.head (Some Sample.base) Sample.start.
Proof.
  refine (files_of_the_baseline_alone_are_ignored
            (Sample.pull_request (Sample.inputs true true 50)
               (Some Sample.head) (Some Sample.base_with_deleted))
            Sample.head Sample.base Sample.base_with_deleted Sample.start _ _).
  - reflexivity.
  - intros hash [<-|[<-|[<-|[]]]]; reflexivity.
Defined.

(** X13, at c.ts of the sample snapshots, which the baseline lacks. *)
Lemma fileRow_absent_in_base_witness :
  fileRow (Sample.inputs true true 50) Sample.head (Some Sample.base)
    ("h3", Sample.file "c.ts" 10) Sample.start
  = (Sample.start, Return ["c.ts"; "gray 0%"; "red 10%"; "gray 0%"]).
Proof.
  refine (proj2 (proj2 (fileRow_absent_in_base (Sample.inputs true true 50)
                          Sample.head Sample.base "h3"
                          (Sample.file "c.ts" 10) Sample.start _))).
  simpl. intuition discriminate.
Defined.

(** X14, at a.ts of the sample snapshots: 90 percent after 95. *)
Lemma row_of_a_file_with_a_nonzero_baseline_witness :
  fileRow (Sample.inputs true true 50) Sample.head (Some Sample.base)
    ("h1", Sample.file "a.ts" 90) Sample.start
  = (mkState [SetFailed "a.ts coverage difference was -5%"] [],
     Return ["a.ts"; "green 95%"; "green 90%"; "red -5%"]).
Proof.
  refine (row_of_a_file_with_a_nonzero_baseline (Sample.inputs true true 50)
            Sample.head Sample.base "h1"
            (file := Sample.file "a.ts" 90) (baseFile := Sample.file "a.ts" 95)
            Sample.start _ _ _).
  - reflexivity.
  - reflexivity.
  - discriminate.
Defined.

(** X15, on the sample head without baseline. *)
Lemma overall_block_without_baseline_witness :
  let w := Sample.pull_request (Sample.inputs true true 50) (Some Sample.head) None in
  exists before after,
    In (WriteFile "code-coverage-results.md"
          (Summary_stringify
             (before
                ++ Raw (markdownTable
                          [ [""; ""];
                            ["Current";
                             "![Current](https://img.shields.io/badge/Current-70%-yellow?style=for-the-badge)"] ])
                :: after)))
       (log (fst (generateMarkdown w Sample.head None Sample.start))).
Proof.
  refine (overall_block_without_baseline_is_current_alone
            (Sample.pull_request (Sample.inputs true true 50) (Some Sample.head) None)
            Sample.head Sample.start _).
  reflexivity.
Defined.

(** X17, on the sample pull request. *)
Lemma pull_request_with_baseline_witness :
  let w := Sample.pull_request (Sample.inputs true true 50)
             (Some Sample.head) (Some Sample.base) in
  run w Sample.start
  = try_catch (generateMarkdown w Sample.head (Some Sample.base)) core_setFailed
      (mkState [DownloadArtifacts "main"] []).
Proof.
  refine (proj1 (pull_request_with_baseline_reports_against_it
                   (Sample.pull_request (Sample.inputs true true 50)
                      (Some Sample.head) (Some Sample.base))
                   Sample.start (dir := "artifacts")
                   (headCoverage := Sample.head) (baseCoverage := Sample.base)
                   _ _ _ _ _));
    reflexivity.
Defined.
